(** * uni-auth-tf: the Cognito JWT authorizer (functions/jwt_function/main.go)

    A shallow embedding of the Lambda authorizer: the JWKS cache and key
    decoder ([getPublicKey], [base64URLDecode]), the token validator
    ([ValidateToken]) and the API Gateway handler ([handleRequest]).

    The Go packages the program calls are modelled in [Module Go] (strings,
    encoding/base64, encoding/binary, math/big, time) and [Module jwt]
    (github.com/golang-jwt/jwt/v4): the parts the program's behaviour depends
    on are executable definitions that follow the packages' code; the
    decoding of a token string into its JSON segments and the RSA primitive
    are parameters of the development ([jwt.Primitives]). *)

From Stdlib Require Import ZArith String Ascii List Lia Bool.
From stdpp Require Import base option gmap strings list.

Local Open Scope Z_scope.
Set Warnings "-register-all".

(** ** Errors

    Go's [error] values.  One constructor per [errors.New]/[fmt.Errorf] site of
    main.go and per library error the program can return. *)
Inductive error :=
(* main.go *)
| ErrRegionMissing          (* l.57  NewTokenValidator *)
| ErrUserPoolIDMissing      (* l.60 *)
| ErrClientIDMissing        (* l.63 *)
| ErrKeyNotFound            (* l.135 getPublicKey: no record with the kid *)
| ErrUnexpectedAlg          (* l.153 key function: method is not *SigningMethodRSA *)
| ErrKidNotFound            (* l.159 key function: header has no string kid *)
| ErrTokenExpiredV          (* l.174 ValidateToken *)
| ErrIssuerMismatch         (* l.180 *)
| ErrClientIDMismatch       (* l.185 *)
| ErrAudienceMismatch       (* l.190 *)
| ErrInvalidToken           (* l.196 *)
| ErrEnvRegionMissing       (* l.202 ValidateTokenForAPIGateway *)
(* net/http, encoding/json, encoding/base64 *)
| ErrHttpGet                (* http.Get returned an error *)
| ErrJSONDecode             (* json.Decoder.Decode returned an error *)
| CorruptInputError (pos : nat)   (* base64.CorruptInputError *)
(* golang-jwt/jwt v4: the errors a ValidationError carries (its Inner
   error, or its text where the library gives only a text) *)
| ErrTokenMalformed         (* the token string does not decode *)
| ErrAlgUnavailable         (* signing method (alg) is unavailable. *)
| ErrAlgUnspecified         (* signing method (alg) is unspecified. *)
| ErrSignatureInvalid       (* what Method.Verify returned *)
| ErrTokenExpired
| ErrTokenUsedBeforeIssued
| ErrTokenNotValidYet
(* jwt.ValidationError{Inner, Errors}: Errors is the bit field *)
| ValidationError (Inner : error) (Errors : Z).

Inductive result (A : Type) :=
| Ok (a : A)
| Err (e : error).
Arguments Ok {A} a.
Arguments Err {A} e.

Definition is_Ok {A} (r : result A) : bool :=
  match r with Ok _ => true | Err _ => false end.

(** ** The Go packages used by main.go *)
Module Go.

(** A Go [byte] is an 8-bit unsigned integer, kept as a [Z] in [0, 256). *)
Definition is_byte (b : Z) : Prop := 0 <= b < 256.

(** [byte(x)]: conversion of an unsigned integer to a byte keeps the low
    eight bits. *)
Definition to_byte (x : Z) : Z := Z.land x 255.

(** *** strings *)

(** [strings.Repeat(s, n)] *)
Fixpoint strings_Repeat (s : string) (n : nat) : string :=
  match n with
  | O => EmptyString
  | S n' => String.append s (strings_Repeat s n')
  end.

(** [strings.TrimPrefix(s, prefix)] *)
Definition strings_TrimPrefix (s pre : string) : string :=
  if String.prefix pre s
  then String.substring (String.length pre) (String.length s - String.length pre) s
  else s.

(** *** encoding/base64, [URLEncoding] (padded, not strict) *)

Definition encodeURL : string :=
  "ABCDEFGHIJKLMNOPQRSTUVWXYZabcdefghijklmnopqrstuvwxyz0123456789-_".

Fixpoint indexByte (s : string) (c : ascii) (i : Z) : option Z :=
  match s with
  | EmptyString => None
  | String d rest => if Ascii.eqb d c then Some i else indexByte rest c (i + 1)
  end.

(** [enc.decodeMap[in]]: the position of the character in the alphabet;
    [None] is the table's 0xff. *)
Definition decodeMap (c : ascii) : option Z := indexByte encodeURL c 0.

Definition padChar : ascii := "="%char.

Definition isNewline (c : ascii) : bool :=
  Ascii.eqb c "010"%char || Ascii.eqb c "013"%char.

(** [for si < len(src) && (src[si] == '\n' || src[si] == '\r') { si++ }];
    [src] is the input from position [si] on. *)
Fixpoint skipNewlines (src : string) (si : nat) : string * nat :=
  match src with
  | String c rest => if isNewline c then skipNewlines rest (S si) else (src, si)
  | EmptyString => (src, si)
  end.

(** The end of [decodeQuantum]: the 6-bit values read ([dbuf], zero where
    nothing was read) are packed into 24 bits, of which [dlen - 1] bytes are
    written. *)
Definition quantumBytes (dbuf : list Z) (dlen : nat) : list Z :=
  let d i := nth i dbuf 0 in
  let val := Z.lor (Z.lor (Z.lor (Z.shiftl (d 0%nat) 18) (Z.shiftl (d 1%nat) 12))
                           (Z.shiftl (d 2%nat) 6)) (d 3%nat) in
  firstn (dlen - 1)
    [to_byte (Z.shiftr val 16); to_byte (Z.shiftr val 8); to_byte (Z.shiftr val 0)].

(** [Encoding.Decode]: the loop [for si < len(src)] around [decodeQuantum],
    as one recursion on the unread input.  [si] is the index of the next
    input byte, [j] the slot of the quantum being filled, [dbuf] the slots
    filled so far, [total] is [len(src)].  (The 8- and 4-character fast
    paths of [Decode] produce what [decodeQuantum] produces and fall back to
    it on any character outside the alphabet.) *)
Fixpoint decodeLoop (total : nat) (src : string) (si j : nat) (dbuf : list Z)
  : result (list Z) :=
  match src with
  | EmptyString =>
      match j with
      | O => Ok []
      | _ => Err (CorruptInputError (si - j))
      end
  | String c rest =>
      let si := S si in
      match decodeMap c with
      | Some out =>
          if (j =? 3)%nat
          then match decodeLoop total rest si 0 [] with
               | Ok more => Ok (quantumBytes (dbuf ++ [out]) 4 ++ more)
               | Err e => Err e
               end
          else decodeLoop total rest si (S j) (dbuf ++ [out])
      | None =>
          if isNewline c then decodeLoop total rest si j dbuf
          else if negb (Ascii.eqb c padChar) then Err (CorruptInputError (si - 1))
          else
            match j with
            | 0%nat | 1%nat => Err (CorruptInputError (si - 1))
            | 2%nat =>
                let '(src1, si1) := skipNewlines rest si in
                match src1 with
                | EmptyString => Err (CorruptInputError total)
                | String c2 rest2 =>
                    if negb (Ascii.eqb c2 padChar) then Err (CorruptInputError (si1 - 1))
                    else
                      let '(src2, si2) := skipNewlines rest2 (S si1) in
                      match src2 with
                      | EmptyString => Ok (quantumBytes dbuf 2)
                      | String _ _ => Err (CorruptInputError si2)
                      end
                end
            | _ =>
                let '(src2, si2) := skipNewlines rest si in
                match src2 with
                | EmptyString => Ok (quantumBytes dbuf j)
                | String _ _ => Err (CorruptInputError si2)
                end
            end
      end
  end.

(** [base64.URLEncoding.DecodeString(s)] *)
Definition DecodeString (s : string) : result (list Z) :=
  decodeLoop (String.length s) s 0 0 [].

(** *** encoding/binary *)

(** [binary.BigEndian.Uint32(b)]:
    [uint32(b[3]) | uint32(b[2])<<8 | uint32(b[1])<<16 | uint32(b[0])<<24].
    The program only calls it on slices of at least four bytes. *)
Definition BigEndian_Uint32 (b : list Z) : Z :=
  Z.lor (Z.lor (Z.lor (nth 3 b 0) (Z.shiftl (nth 2 b 0) 8))
               (Z.shiftl (nth 1 b 0) 16))
        (Z.shiftl (nth 0 b 0) 24).

(** *** math/big *)

(** [new(big.Int).SetBytes(buf)]: [buf] read as a big-endian unsigned
    integer. *)
Definition SetBytes (buf : list Z) : Z :=
  fold_left (fun acc b => acc * 256 + b) buf 0.

(** *** time
    Instants and durations are counted in nanoseconds; an instant is the
    number of nanoseconds since the Unix epoch. *)
Definition Second : Z := 1000000000.
Definition Hour : Z := 3600 * Second.
Definition maxDuration : Z := 2 ^ 63 - 1.
Definition minDuration : Z := - 2 ^ 63.

(** The zero [time.Time] (January 1, year 1, 00:00 UTC). *)
Definition zeroTime : Z := -62135596800 * Second.

(** [t.Sub(u)]: the difference, saturated to the range of [Duration]. *)
Definition time_Sub (t u : Z) : Z :=
  Z.max minDuration (Z.min maxDuration (t - u)).

(** [t.Unix()] *)
Definition Unix (t : Z) : Z := t / Second.

End Go.

(** ** Data of main.go *)

(** JSON values as [encoding/json] decodes them into [interface{}].  Numbers
    are the integer-valued ones (NumericDate claims are whole seconds). *)
Inductive value :=
| VString (s : string)
| VNumber (n : Z)
| VBool (b : bool)
| VNull
| VArray (l : list value)
| VObject (m : list (string * value)).

(** [x != s] for an [interface{}] [x] and a string [s]: equal only when the
    dynamic type of [x] is string and the strings are equal. *)
Definition iface_eqb_string (x : value) (s : string) : bool :=
  match x with
  | VString t => String.eqb t s
  | _ => false
  end.

(** [x.(string)] *)
Definition as_string (x : option value) : option string :=
  match x with
  | Some (VString s) => Some s
  | _ => None
  end.

(** [type JWK struct] *)
Module JWK.
Record t := mk { Kid : string; Alg : string; Kty : string;
                 E : string; N : string; Use : string }.
End JWK.

(** [type JWKSResponse struct] *)
Record JWKSResponse := { Keys : list JWK.t }.

(** [rsa.PublicKey] *)
Module rsa.
Record PublicKey := mk { N : Z; E : Z }.
End rsa.

(** [type TokenValidator struct] *)
Record TokenValidator := mkTokenValidator {
  JwksURL : string;
  UserPoolID : string;
  ClientID : string;
  jwksCache : gmap string rsa.PublicKey;
  lastUpdated : Z
}.

(** ** The world outside the process

    What [http.Get] followed by the JSON decoding of the body gives. *)
Inductive HttpResult :=
| HttpFailure                      (* http.Get returns an error *)
| HttpBadBody                      (* the body does not decode into JWKSResponse *)
| HttpJWKS (jwks : JWKSResponse).  (* the decoded body *)

(** [clock] is the instant [time.Now()] reads; [net n url] is what the [n]-th
    GET of the run, made to [url], returns; [httpGets] logs the URLs
    requested so far (latest first) and [verifies] counts the calls of
    [Method.Verify].  One call runs at one instant: every [time.Now()] in it
    reads the same [clock]; [set_clock] moves the clock between calls. *)
Record World := mkWorld {
  clock : Z;
  net : nat -> string -> HttpResult;
  httpGets : list string;
  verifies : nat
}.

Record State := mkState { validator : TokenValidator; world : World }.

Definition set_jwksCache (c : gmap string rsa.PublicKey) (st : State) : State :=
  let v := validator st in
  mkState (mkTokenValidator (JwksURL v) (UserPoolID v) (ClientID v) c (lastUpdated v))
          (world st).

Definition set_lastUpdated (t : Z) (st : State) : State :=
  let v := validator st in
  mkState (mkTokenValidator (JwksURL v) (UserPoolID v) (ClientID v) (jwksCache v) t)
          (world st).

Definition set_clock (t : Z) (st : State) : State :=
  let w := world st in
  mkState (validator st) (mkWorld t (net w) (httpGets w) (verifies w)).

(** ** Computations: a state that survives errors

    A Go call may change the validator and the world and then return an
    error; the changes stay. *)
Definition M (S A : Type) : Type := S -> result A * S.

Definition ret {S A} (a : A) : M S A := fun st => (Ok a, st).
Definition fail {S A} (e : error) : M S A := fun st => (Err e, st).
Definition bind {S A B} (c : M S A) (k : A -> M S B) : M S B :=
  fun st => match c st with
            | (Ok a, st') => k a st'
            | (Err e, st') => (Err e, st')
            end.
Definition lift {S A} (r : result A) : M S A := fun st => (r, st).
Definition gets {S A} (f : S -> A) : M S A := fun st => (Ok (f st), st).
Definition modify {S} (f : S -> S) : M S unit := fun st => (Ok tt, f st).

(** [if cond { return nil, err }] *)
Definition failIf {S} (cond : bool) (e : error) : M S unit :=
  if cond then fail e else ret tt.

Notation "x <- c ;; k" := (bind c (fun x => k))
  (at level 100, c at next level, right associativity).
Notation "c ;;; k" := (bind c (fun _ => k))
  (at level 100, right associativity).

(** [time.Now()] *)
Definition time_Now : M State Z := gets (fun st => clock (world st)).

(** [time.Since(t)] *)
Definition time_Since (t : Z) : M State Z :=
  now <- time_Now ;; ret (Go.time_Sub now t).

(** [http.Get(url)] and the decoding of the response body. *)
Definition http_Get (url : string) : M State HttpResult :=
  fun st =>
    let w := world st in
    (Ok (net w (length (httpGets w)) url),
     mkState (validator st) (mkWorld (clock w) (net w) (url :: httpGets w) (verifies w))).

(** ** github.com/golang-jwt/jwt/v4

    [Parse] is [Parser.ParseWithClaims] with [MapClaims{}] and the default
    parser options (parser.go); the claim checks are those of map_claims.go
    and claims.go; the error bits those of errors.go. *)
Module jwt.

(** The registered signing methods, by Go type. *)
Inductive SigningMethod :=
| SigningMethodRSA (Name : string)       (* RS256, RS384, RS512 *)
| SigningMethodRSAPSS (Name : string)    (* PS256, PS384, PS512 *)
| SigningMethodHMAC (Name : string)      (* HS256, HS384, HS512 *)
| SigningMethodECDSA (Name : string)     (* ES256, ES384, ES512 *)
| SigningMethodEd25519                   (* EdDSA *)
| signingMethodNone.                     (* none *)

Definition one_of (alg : string) (names : list string) : bool :=
  existsb (String.eqb alg) names.

(** [jwt.GetSigningMethod(alg)]; [None] is the nil method. *)
Definition GetSigningMethod (alg : string) : option SigningMethod :=
  if one_of alg ["RS256"; "RS384"; "RS512"]%string then Some (SigningMethodRSA alg)
  else if one_of alg ["PS256"; "PS384"; "PS512"]%string then Some (SigningMethodRSAPSS alg)
  else if one_of alg ["HS256"; "HS384"; "HS512"]%string then Some (SigningMethodHMAC alg)
  else if one_of alg ["ES256"; "ES384"; "ES512"]%string then Some (SigningMethodECDSA alg)
  else if String.eqb alg "EdDSA" then Some SigningMethodEd25519
  else if String.eqb alg "none" then Some signingMethodNone
  else None.

(** [jwt.Token]; [Claims] is always a [jwt.MapClaims] ([jwt.Parse] parses
    with [MapClaims{}]). *)
Record Token := mkToken {
  Raw : string;
  Method : SigningMethod;
  Header : gmap string value;
  Claims : gmap string value;
  Signature : string;
  Valid : bool
}.

(** What the three segments of a well-formed token string decode to. *)
Record Segments := mkSegments {
  segHeader : gmap string value;     (* JSON of parts[0] *)
  segClaims : gmap string value;     (* JSON of parts[1] *)
  signingString : string;            (* parts[0] + "." + parts[1] *)
  segSignature : string              (* parts[2] *)
}.

(** The two operations of the library this development does not look
    into: splitting and decoding the token string ([None]: the string is
    not three base64url segments with JSON objects in the first two), and
    [Method.Verify(signingString, signature, key) == nil] for a key that is
    a [*rsa.PublicKey]. *)
Class Primitives := {
  decodeSegments : string -> option Segments;
  Verify : SigningMethod -> string -> string -> rsa.PublicKey -> bool
}.

(** The bits of [ValidationError.Errors]. *)
Definition ValidationErrorMalformed : Z := Z.shiftl 1 0.
Definition ValidationErrorUnverifiable : Z := Z.shiftl 1 1.
Definition ValidationErrorSignatureInvalid : Z := Z.shiftl 1 2.
Definition ValidationErrorAudience : Z := Z.shiftl 1 3.
Definition ValidationErrorExpired : Z := Z.shiftl 1 4.
Definition ValidationErrorIssuedAt : Z := Z.shiftl 1 5.
Definition ValidationErrorIssuer : Z := Z.shiftl 1 6.
Definition ValidationErrorNotValidYet : Z := Z.shiftl 1 7.

(** [MapClaims.VerifyExpiresAt(cmp, req)]: [now.Before(exp)]. *)
Definition VerifyExpiresAt (m : gmap string value) (cmp : Z) (req : bool) : bool :=
  match m !! "exp"%string with
  | None => negb req
  | Some (VNumber exp) => if exp =? 0 then negb req else cmp <? exp
  | Some _ => false
  end.

(** [MapClaims.VerifyIssuedAt(cmp, req)]: [now.After(iat) || now.Equal(iat)]. *)
Definition VerifyIssuedAt (m : gmap string value) (cmp : Z) (req : bool) : bool :=
  match m !! "iat"%string with
  | None => negb req
  | Some (VNumber iat) => if iat =? 0 then negb req else iat <=? cmp
  | Some _ => false
  end.

(** [MapClaims.VerifyNotBefore(cmp, req)]: [now.After(nbf) || now.Equal(nbf)]. *)
Definition VerifyNotBefore (m : gmap string value) (cmp : Z) (req : bool) : bool :=
  match m !! "nbf"%string with
  | None => negb req
  | Some (VNumber nbf) => if nbf =? 0 then negb req else nbf <=? cmp
  | Some _ => false
  end.

(** [MapClaims.VerifyIssuer(cmp, req)]: [iss, _ := m["iss"].(string)], then a
    constant-time comparison unless [iss] is empty. *)
Definition VerifyIssuer (m : gmap string value) (cmp : string) (req : bool) : bool :=
  match as_string (m !! "iss"%string) with
  | Some iss => if String.eqb iss EmptyString then negb req else String.eqb iss cmp
  | None => negb req
  end.

(** [MapClaims.Valid()]: [None] is the nil error.  The three checks are all
    made; each failing one sets [Inner] and adds its bit. *)
Definition MapClaims_Valid (m : gmap string value) (now : Z) : option error :=
  let vErr : option error * Z := (None, 0) in
  let vErr := if negb (VerifyExpiresAt m now false)
              then (Some ErrTokenExpired, Z.lor (snd vErr) ValidationErrorExpired)
              else vErr in
  let vErr := if negb (VerifyIssuedAt m now false)
              then (Some ErrTokenUsedBeforeIssued, Z.lor (snd vErr) ValidationErrorIssuedAt)
              else vErr in
  let vErr := if negb (VerifyNotBefore m now false)
              then (Some ErrTokenNotValidYet, Z.lor (snd vErr) ValidationErrorNotValidYet)
              else vErr in
  match vErr with
  | (Some inner, Errors) => if Errors =? 0 then None else Some (ValidationError inner Errors)
  | (None, _) => None
  end.

Section Parse.
Context {prim : Primitives}.

(** [Parser.ParseUnverified]: decode the segments, then look the signing
    method up. *)
Definition ParseUnverified (tokenString : string) : result (Token * Segments) :=
  match decodeSegments tokenString with
  | None => Err (ValidationError ErrTokenMalformed ValidationErrorMalformed)
  | Some seg =>
      match as_string (segHeader seg !! "alg"%string) with
      | Some method =>
          match GetSigningMethod method with
          | Some m =>
              Ok (mkToken tokenString m (segHeader seg) (segClaims seg) EmptyString false, seg)
          | None => Err (ValidationError ErrAlgUnavailable ValidationErrorUnverifiable)
          end
      | None => Err (ValidationError ErrAlgUnspecified ValidationErrorUnverifiable)
      end
  end.

(** The call [token.Method.Verify(...)], counted in the world. *)
Definition Method_Verify (token : Token) (seg : Segments) (key : rsa.PublicKey)
  : M State bool :=
  fun st =>
    let w := world st in
    (Ok (Verify (Method token) (signingString seg) (segSignature seg) key),
     mkState (validator st)
             (mkWorld (clock w) (net w) (httpGets w) (S (verifies w)))).

(** An error of the key function is returned as it is when it is a
    [*ValidationError], else inside one marked unverifiable. *)
Definition wrapKeyError (e : error) : error :=
  match e with
  | ValidationError _ _ => e
  | _ => ValidationError e ValidationErrorUnverifiable
  end.

(** [jwt.Parse(tokenString, keyFunc)] (v4.5: [ParseWithClaims] with
    [MapClaims{}] and the default parser): parse, look the key up, verify
    the signature, validate the claims, set [Valid]. *)
Definition Parse (tokenString : string) (keyFunc : Token -> M State rsa.PublicKey)
  : M State Token :=
  parsed <- lift (ParseUnverified tokenString) ;;
  let token := fst parsed in
  let seg := snd parsed in
  key <- (fun st => match keyFunc token st with
                    | (Ok key, st') => (Ok key, st')
                    | (Err e, st') => (Err (wrapKeyError e), st')
                    end) ;;
  let token := mkToken (Raw token) (Method token) (Header token) (Claims token)
                       (segSignature seg) false in
  verified <- Method_Verify token seg key ;;
  if negb verified
  then fail (ValidationError ErrSignatureInvalid ValidationErrorSignatureInvalid)
  else
    now <- time_Now ;;
    match MapClaims_Valid (Claims token) (Go.Unix now) with
    | Some vErr => fail vErr
    | None =>
        ret (mkToken (Raw token) (Method token) (Header token) (Claims token)
                     (Signature token) true)
    end.
End Parse.

End jwt.

(** ** github.com/aws/aws-lambda-go/events *)
Module events.
Record IAMPolicyStatement := mkStatement {
  Action : list string;
  Effect : string;
  Resource : list string
}.
Record APIGatewayCustomAuthorizerPolicy := mkPolicy {
  Version : string;
  Statement : list IAMPolicyStatement
}.
Record APIGatewayCustomAuthorizerRequest := mkRequest {
  Type_ : string;
  AuthorizationToken : string;
  MethodArn : string
}.
Record APIGatewayCustomAuthorizerResponse := mkResponse {
  PrincipalID : string;
  PolicyDocument : APIGatewayCustomAuthorizerPolicy; Context : gmap string value
}.
End events.

(** ** main.go *)

(** [func base64URLDecode(str string) ([]byte, error)] *)
Definition base64URLDecode (str : string) : result (list Z) :=
  let l := (String.length str mod 4)%nat in
  let str := if (0 <? l)%nat
             then String.append str (Go.strings_Repeat "=" (4 - l))
             else str in
  Go.DecodeString str.

(** getPublicKey, l.115-120: the exponent as an [int] (64 bits wide, so the
    conversion from [uint32] changes nothing). *)
Definition exponentOf (e : list Z) : Z :=
  if (length e <? 4)%nat
  then Go.BigEndian_Uint32 (repeat 0 (4 - length e) ++ e)
  else Go.BigEndian_Uint32 e.

(** getPublicKey, l.104-126: the public key of the record that matches. *)
Definition decodeKey (jwk : JWK.t) : result rsa.PublicKey :=
  match base64URLDecode (JWK.N jwk) with
  | Err err => Err err
  | Ok n =>
      match base64URLDecode (JWK.E jwk) with
      | Err err => Err err
      | Ok e =>
          let exponent := exponentOf e in
          Ok (rsa.mk (Go.SetBytes n) exponent)
      end
  end.

(** [func NewTokenValidator(region, userPoolID, clientID string)] *)
Definition NewTokenValidator (region userPoolID clientID : string)
  : result TokenValidator :=
  if String.eqb region EmptyString then Err ErrRegionMissing
  else if String.eqb userPoolID EmptyString then Err ErrUserPoolIDMissing
  else if String.eqb clientID EmptyString then Err ErrClientIDMissing
  else
    let jwksURL := ("https://cognito-idp." +:+ region +:+ ".amazonaws.com/"
                    +:+ userPoolID +:+ "/.well-known/jwks.json")%string in
    Ok (mkTokenValidator jwksURL userPoolID clientID ∅ Go.zeroTime).

(** getPublicKey, l.101-135: the loop over [jwks.Keys] and the error after
    it. *)
Fixpoint rangeKeys (kid : string) (keys : list JWK.t) : M State rsa.PublicKey :=
  match keys with
  | [] => fail ErrKeyNotFound
  | jwk :: keys' =>
      if String.eqb (JWK.Kid jwk) kid
      then
        publicKey <- lift (decodeKey jwk) ;;
        cache <- gets (fun st => jwksCache (validator st)) ;;
        modify (set_jwksCache (<[JWK.Kid jwk := publicKey]> cache)) ;;;
        now <- time_Now ;;
        modify (set_lastUpdated now) ;;;
        ret publicKey
      else rangeKeys kid keys'
  end.

(** [func (v *TokenValidator) getPublicKey(kid string)], returning the key
    or an error. *)
Definition getPublicKey (kid : string) : M State rsa.PublicKey :=
  last <- gets (fun st => lastUpdated (validator st)) ;;
  since <- time_Since last ;;
  (if Go.Hour <? since then modify (set_jwksCache ∅) else ret tt) ;;;
  cache <- gets (fun st => jwksCache (validator st)) ;;
  match cache !! kid with
  | Some key => ret key
  | None =>
      url <- gets (fun st => JwksURL (validator st)) ;;
      resp <- http_Get url ;;
      match resp with
      | HttpFailure => fail ErrHttpGet
      | HttpBadBody => fail ErrJSONDecode
      | HttpJWKS jwks => rangeKeys kid (Keys jwks)
      end
  end.

Section Validator.
(** The package variables read from the environment at start-up. *)
Variables cognitoRegion cognitoUserPoolID cognitoClientID : string.
Context {prim : jwt.Primitives}.

(** ValidateToken, l.150-164: the key function given to [jwt.Parse]. *)
Definition keyFunc (token : jwt.Token) : M State rsa.PublicKey :=
  match jwt.Method token with
  | jwt.SigningMethodRSA _ =>
      match as_string (jwt.Header token !! "kid"%string) with
      | Some kid => getPublicKey kid
      | None => fail ErrKidNotFound
      end
  | _ => fail ErrUnexpectedAlg
  end.

(** [func (v *TokenValidator) ValidateToken(tokenString string)], returning
    the token or an error. *)
Definition ValidateToken (tokenString : string) : M State jwt.Token :=
  token <- jwt.Parse tokenString keyFunc ;;
  let claims := jwt.Claims token in
  if jwt.Valid token
  then
    now <- time_Now ;;
    failIf (negb (jwt.VerifyExpiresAt claims (Go.Unix now) true)) ErrTokenExpiredV ;;;
    userPoolID <- gets (fun st => UserPoolID (validator st)) ;;
    let issuer := ("https://cognito-idp." +:+ cognitoRegion +:+ ".amazonaws.com/"
                   +:+ userPoolID)%string in
    failIf (negb (jwt.VerifyIssuer claims issuer true)) ErrIssuerMismatch ;;;
    clientID <- gets (fun st => ClientID (validator st)) ;;
    failIf (match claims !! "client_id"%string with
            | Some c => negb (iface_eqb_string c clientID)
            | None => false
            end) ErrClientIDMismatch ;;;
    failIf (match claims !! "aud"%string with
            | Some aud => negb (iface_eqb_string aud clientID)
            | None => false
            end) ErrAudienceMismatch ;;;
    ret token
  else fail ErrInvalidToken.

(** Run a method of a validator the caller built and drops afterwards. *)
Definition withValidator {A} (v : TokenValidator) (c : M State A) : M World A :=
  fun w => let '(r, st) := c (mkState v w) in (r, world st).

(** [func ValidateTokenForAPIGateway(ctx, token, userPoolID, clientID)] *)
Definition ValidateTokenForAPIGateway (token userPoolID clientID : string)
  : M World (gmap string value) :=
  if String.eqb cognitoRegion EmptyString then fail ErrEnvRegionMissing
  else
    validator <- lift (NewTokenValidator cognitoRegion userPoolID clientID) ;;
    jwtToken <- withValidator validator (ValidateToken token) ;;
    ret (jwt.Claims jwtToken).

(** [func generatePolicy(principalID, effect, resource string)] *)
Definition generatePolicy (principalID effect resource : string)
  : events.APIGatewayCustomAuthorizerPolicy :=
  events.mkPolicy "2012-10-17"
    [events.mkStatement ["execute-api:Invoke"%string] effect [resource]].

(** [func handleRequest(ctx, event)] *)
Definition handleRequest (event : events.APIGatewayCustomAuthorizerRequest)
  : M World events.APIGatewayCustomAuthorizerResponse :=
  let token := Go.strings_TrimPrefix (events.AuthorizationToken event) "Bearer " in
  claims <- ValidateTokenForAPIGateway token cognitoUserPoolID cognitoClientID ;;
  let sub := default EmptyString (as_string (claims !! "sub"%string)) in
  let policyDocument := generatePolicy sub "Allow" (events.MethodArn event) in
  let context : gmap string value := {[ "sub"%string := VString sub ]} in
  let context := match as_string (claims !! "cognito:username"%string) with
                 | Some username => <["username"%string := VString username]> context
                 | None => context
                 end in
  let context := match as_string (claims !! "email"%string) with
                 | Some email => <["email"%string := VString email]> context
                 | None => context
                 end in
  ret (events.mkResponse sub policyDocument context).

End Validator.

(** * Notions used to state the properties *)

(** ** Bytes and the key decoder *)

(** The value of a byte sequence read as a big-endian unsigned integer (most
    significant byte first). *)
Fixpoint big_endian (bs : list Z) : Z :=
  match bs with
  | [] => 0
  | b :: bs' => b * 256 ^ Z.of_nat (length bs') + big_endian bs'
  end.

(** Re-padding as the specification words it: append '=' until the length is
    a multiple of 4. *)
Definition repad (str : string) : string :=
  String.append str (Go.strings_Repeat "=" ((4 - String.length str mod 4) mod 4)).

(** The exponent as the specification words it: fewer than four bytes are
    left-padded with zero bytes to four; of four or more the first four are
    read; either way as a big-endian unsigned integer. *)
Definition spec_exponent (e : list Z) : Z :=
  if (length e <? 4)%nat
  then big_endian (repeat 0 (4 - length e) ++ e)
  else big_endian (firstn 4 e).

(** A character the decoder can never accept: outside the alphabet, not the
    padding character and not one of the line breaks it skips. *)
Definition foreign (c : ascii) : bool :=
  match Go.decodeMap c with
  | Some _ => false
  | None => negb (Go.isNewline c) && negb (Ascii.eqb c Go.padChar)
  end.

Fixpoint has_foreign (s : string) : bool :=
  match s with
  | EmptyString => false
  | String c rest => foreign c || has_foreign rest
  end.

(** ** The JWKS cache *)

(** The validator is stale when more than an hour has passed since
    [lastUpdated]. *)
Definition stale (st : State) : Prop :=
  Go.Hour < clock (world st) - lastUpdated (validator st).

(** The state the lookup of l.83 runs in. *)
Definition refreshed (st : State) : State :=
  if Go.Hour <? Go.time_Sub (clock (world st)) (lastUpdated (validator st))
  then set_jwksCache ∅ st
  else st.

(** The state after [http.Get]. *)
Definition requested (st : State) : State :=
  let w := world st in
  mkState (validator st)
          (mkWorld (clock w) (net w) (JwksURL (validator st) :: httpGets w) (verifies w)).

(** The state after l.129-130. *)
Definition stored (kid : string) (key : rsa.PublicKey) (st : State) : State :=
  set_lastUpdated (clock (world st))
    (set_jwksCache (<[kid := key]> (jwksCache (validator st))) st).

(** The state after [Method.Verify]. *)
Definition verified (st : State) : State :=
  let w := world st in
  mkState (validator st) (mkWorld (clock w) (net w) (httpGets w) (S (verifies w))).

(** The first record of the set with the key id, as the loop finds it. *)
Definition firstMatch (kid : string) (keys : list JWK.t) : option JWK.t :=
  List.find (fun jwk => String.eqb (JWK.Kid jwk) kid) keys.

(** ** The error kinds of the specification, read on the Go errors

    The program has no error types of its own; each kind is recognised by the
    place the error was made.  Errors the key function returns reach the
    caller inside the library's [ValidationError]. *)

Definition KeyDecodeError (e : error) : bool :=
  match e with
  | CorruptInputError _ => true
  | _ => false
  end.

Definition UnsupportedAlgorithmError (e : error) : bool :=
  match e with
  | ErrUnexpectedAlg
  | ValidationError ErrUnexpectedAlg _
  | ValidationError ErrAlgUnavailable _ => true
  | _ => false
  end.




(** ** The checks of the token validator *)

(** The issuer ValidateToken expects (l.178). *)
Definition expectedIssuer (cognitoRegion userPoolID : string) : string :=
  ("https://cognito-idp." +:+ cognitoRegion +:+ ".amazonaws.com/" +:+ userPoolID)%string.

(** l.184 and l.189: a claim that is present must be the string [clientID]. *)
Definition claimIs (claims : gmap string value) (name clientID : string) : bool :=
  match claims !! name with
  | Some x => iface_eqb_string x clientID
  | None => true
  end.

(** ValidateToken, l.171-193, on the claims of a token [jwt.Parse] returned:
    the error of the first check that fails. *)
Definition checkClaims (cognitoRegion : string) (st : State) (claims : gmap string value)
  : option error :=
  if negb (jwt.VerifyExpiresAt claims (Go.Unix (clock (world st))) true)
  then Some ErrTokenExpiredV
  else if negb (jwt.VerifyIssuer claims
                  (expectedIssuer cognitoRegion (UserPoolID (validator st))) true)
  then Some ErrIssuerMismatch
  else if negb (claimIs claims "client_id" (ClientID (validator st)))
  then Some ErrClientIDMismatch
  else if negb (claimIs claims "aud" (ClientID (validator st)))
  then Some ErrAudienceMismatch
  else None.

Section Checks.
Context {prim : jwt.Primitives}.






End Checks.

(** ** Test vectors *)

(** The record of the fixed test vector: modulus bytes DE AD BE EF, exponent
    bytes 01 00 01, both without padding. *)
Definition testVectorKey : JWK.t :=
  JWK.mk "k1" "RS256" "RSA" "AQAB" "3q2-7w" "sig".

(** A record like [testVectorKey] with an empty exponent field. *)
Definition emptyExponentKey : JWK.t :=
  JWK.mk "k1" "RS256" "RSA" EmptyString "3q2-7w" "sig".

(** A deployment, an endpoint that publishes [testVectorKey], and a handful of
    tokens, given by what their segments decode to.  [Verify] is a stand-in
    for RSA: it accepts the signature "signed-with-k1" under the key of
    [testVectorKey] for the RSA methods and nothing else. *)
Module Fixture.
Definition region : string := "ap-northeast-1".
Definition pool : string := "ap-northeast-1_Pool0001".
Definition client : string := "client-0001".

(** 2023-11-14 22:13:20 UTC *)
Definition nowSec : Z := 1700000000.
Definition now : Z := nowSec * Go.Second.

Definition key1 : rsa.PublicKey := rsa.mk 3735928559 65537.

Definition header (alg : string) (kid : option string) : gmap string value :=
  match kid with
  | Some k => <["kid"%string := VString k]> {[ "alg"%string := VString alg ]}
  | None => {[ "alg"%string := VString alg ]}
  end.

Definition claims (extra : list (string * value)) : gmap string value :=
  list_to_map (extra ++ [("iss"%string, VString (expectedIssuer region pool));
                         ("client_id"%string, VString client);
                         ("token_use"%string, VString "access")]).

Definition segments (hdr cl : gmap string value) : jwt.Segments :=
  jwt.mkSegments hdr cl "header.payload" "signed-with-k1".

Definition exp1h : string * value := ("exp"%string, VNumber (nowSec + 3600)).
Definition sub1 : string * value := ("sub"%string, VString "user-0001").

Definition tokens : list (string * jwt.Segments) :=
  [ ("tok-valid"%string,
      segments (header "RS256" (Some "k1"%string)) (claims [sub1; exp1h]));
    ("tok-no-sub"%string,
      segments (header "RS256" (Some "k1"%string)) (claims [exp1h]));
    ("tok-not-yet"%string,
      segments (header "RS256" (Some "k1"%string))
               (claims [sub1; exp1h; ("nbf"%string, VNumber (nowSec + 60))]));
    ("tok-no-exp-not-yet"%string,
      segments (header "RS256" (Some "k1"%string))
               (claims [sub1; ("nbf"%string, VNumber (nowSec + 60))]));
    ("tok-no-exp"%string,
      segments (header "RS256" (Some "k1"%string)) (claims [sub1]));
    ("tok-expired"%string,
      segments (header "RS256" (Some "k1"%string))
               (claims [sub1; ("exp"%string, VNumber (nowSec - 1))]));
    ("tok-hs256"%string,
      segments (header "HS256" (Some "k1"%string)) (claims [sub1; exp1h]));
    ("tok-no-kid"%string,
      segments (header "RS256" None) (claims [sub1; exp1h]));
    ("tok-other-client"%string,
      segments (header "RS256" (Some "k1"%string))
               (list_to_map [sub1; exp1h;
                             ("iss"%string, VString (expectedIssuer region pool));
                             ("client_id"%string, VString "client-0002")]));
    ("tok-no-audience"%string,
      segments (header "RS256" (Some "k1"%string))
               (list_to_map [sub1; exp1h;
                             ("iss"%string, VString (expectedIssuer region pool))])) ].

Fixpoint assoc (s : string) (l : list (string * jwt.Segments)) : option jwt.Segments :=
  match l with
  | [] => None
  | (k, seg) :: l' => if String.eqb k s then Some seg else assoc s l'
  end.

Definition primitives : jwt.Primitives :=
  {| jwt.decodeSegments := fun s => assoc s tokens;
     jwt.Verify := fun m _ sig key =>
       match m with
       | jwt.SigningMethodRSA _ =>
           String.eqb sig "signed-with-k1"
           && (rsa.N key =? rsa.N key1) && (rsa.E key =? rsa.E key1)
       | _ => false
       end |}.

Definition world0 : World :=
  mkWorld now (fun _ _ => HttpJWKS (Build_JWKSResponse [testVectorKey])) [] 0.

Definition validator0 : TokenValidator :=
  mkTokenValidator
    "https://cognito-idp.ap-northeast-1.amazonaws.com/ap-northeast-1_Pool0001/.well-known/jwks.json"
    pool client ∅ Go.zeroTime.

Definition state0 : State := mkState validator0 world0.

Definition url : string := JwksURL validator0.

(** The state after the first resolution of "k1" from [state0]. *)
Definition state1 : State :=
  stored "k1" key1 (requested (set_jwksCache ∅ state0)).

(** The world after one validation that resolved "k1" from the endpoint. *)
Definition world1 : World :=
  mkWorld now (net world0) [url] 1.

(** A second published key (modulus bytes CA FE BA BE) and an endpoint that
    publishes both. *)
Definition otherKey : JWK.t :=
  JWK.mk "k2" "RS256" "RSA" "AQAB" "yv66vg" "sig".

Definition state0' : State :=
  mkState validator0
    (mkWorld now (fun _ _ => HttpJWKS (Build_JWKSResponse [testVectorKey; otherKey]))
             [] 0).

Definition minutes (n : Z) : Z := n * 60 * Go.Second.

Definition request (token : string) : events.APIGatewayCustomAuthorizerRequest :=
  events.mkRequest "TOKEN" ("Bearer " +:+ token)
    "arn:aws:execute-api:ap-northeast-1:000000000000:api/prod/GET/items".
End Fixture.

(** ** Notions for the further properties *)

(** The character of a 6-bit value in the URL-safe alphabet. *)
Definition encodeChar (v : Z) : ascii :=
  match String.get (Z.to_nat v) Go.encodeURL with
  | Some c => c
  | None => Go.padChar
  end.

(** The base64url encoding of a byte sequence (RFC 4648, section 5): three
    bytes give four characters; a last group of one or two bytes gives two or
    three characters, followed by '=' up to four when [pad] is set.  A JWKS
    publishes the unpadded form. *)
Fixpoint encodeURLString (pad : bool) (bs : list Z) : string :=
  match bs with
  | [] => EmptyString
  | [b0] =>
      String (encodeChar (b0 / 4))
        (String (encodeChar (b0 mod 4 * 16))
           (if pad then "==" else EmptyString))
  | [b0; b1] =>
      String (encodeChar (b0 / 4))
        (String (encodeChar (b0 mod 4 * 16 + b1 / 16))
           (String (encodeChar (b1 mod 16 * 4))
              (if pad then "=" else EmptyString)))
  | b0 :: b1 :: b2 :: rest =>
      String (encodeChar (b0 / 4))
        (String (encodeChar (b0 mod 4 * 16 + b1 / 16))
           (String (encodeChar (b1 mod 16 * 4 + b2 / 64))
              (String (encodeChar (b2 mod 64))
                 (encodeURLString pad rest))))
  end.

(** Every cached key is the decoding of a record that some response of the
    endpoint carries under that key id. *)
Definition published (w : World) (kid : string) (key : rsa.PublicKey) : Prop :=
  exists n url jwks jwk,
    net w n url = HttpJWKS jwks
    /\ In jwk (Keys jwks)
    /\ JWK.Kid jwk = kid
    /\ decodeKey jwk = Ok key.

Definition cachePublished (st : State) : Prop :=
  forall kid key,
    jwksCache (validator st) !! kid = Some key -> published (world st) kid key.

(** The validator [ValidateTokenForAPIGateway] builds for each request. *)
Definition requestValidator (region userPoolID clientID : string) : TokenValidator :=
  mkTokenValidator
    ("https://cognito-idp." +:+ region +:+ ".amazonaws.com/"
     +:+ userPoolID +:+ "/.well-known/jwks.json")%string
    userPoolID clientID ∅ Go.zeroTime.

(** The state a request's validation starts in. *)
Definition requestState (region userPoolID clientID : string) (w : World) : State :=
  mkState (requestValidator region userPoolID clientID) w.

(** The token of a request: the authorization string without a leading
    "Bearer ". *)
Definition bearerToken (event : events.APIGatewayCustomAuthorizerRequest) : string :=
  Go.strings_TrimPrefix (events.AuthorizationToken event) "Bearer ".

(** The context the handler attaches to its response. *)
Definition contextOf (claims : gmap string value) : gmap string value :=
  let sub := default EmptyString (as_string (claims !! "sub"%string)) in
  let context : gmap string value := {[ "sub"%string := VString sub ]} in
  let context := match as_string (claims !! "cognito:username"%string) with
                 | Some username => <["username"%string := VString username]> context
                 | None => context
                 end in
  match as_string (claims !! "email"%string) with
  | Some email => <["email"%string := VString email]> context
  | None => context
  end.

(** The one policy the handler issues. *)
Definition allowPolicy (resource : string) : events.APIGatewayCustomAuthorizerPolicy :=
  events.mkPolicy "2012-10-17"
    [events.mkStatement ["execute-api:Invoke"%string] "Allow" [resource]].

(** The token [ValidateToken] returns for the fixture "tok-valid". *)
Definition acceptedToken : jwt.Token :=
  jwt.mkToken "tok-valid" (jwt.SigningMethodRSA "RS256")
    (Fixture.header "RS256" (Some "k1"%string))
    (Fixture.claims [Fixture.sub1; Fixture.exp1h])
    "signed-with-k1" true.

(** The response of the handler to the request with "tok-valid". *)
Definition acceptedResponse : events.APIGatewayCustomAuthorizerResponse :=
  events.mkResponse "user-0001"
    (allowPolicy (events.MethodArn (Fixture.request "tok-valid")))
    {[ "sub"%string := VString "user-0001" ]}.

(** Goals of linear arithmetic with division and remainder by constants. *)
Ltac euclid := Z.to_euclidean_division_equations; lia.

(** * Properties *)

(** ** Bytes and big-endian values *)

Lemma lor_shiftl_add (lo hi n : Z) :
  0 <= n -> 0 <= lo < 2 ^ n -> Z.lor lo (Z.shiftl hi n) = lo + hi * 2 ^ n.
Proof.
  intros Hn Hlo.
  assert (Hdisj : Z.land lo (Z.shiftl hi n) = 0).
  { apply Z.bits_inj'. intros k Hk.
    rewrite Z.land_spec, Z.bits_0.
    destruct (Z.lt_ge_cases k n) as [Hlt | Hge].
    - rewrite (Z.shiftl_spec_low hi n k Hlt). apply andb_false_r.
    - rewrite <- (Z.mod_small lo (2 ^ n)) by lia.
      rewrite Z.mod_pow2_bits_high by lia. reflexivity. }
  rewrite <- Z.lxor_lor by exact Hdisj.
  rewrite <- Z.add_nocarry_lxor by exact Hdisj.
  rewrite Z.shiftl_mul_pow2 by lia. reflexivity.
Qed.

Lemma Uint32_four (b0 b1 b2 b3 : Z) (rest : list Z) :
  Go.is_byte b0 -> Go.is_byte b1 -> Go.is_byte b2 -> Go.is_byte b3 ->
  Go.BigEndian_Uint32 (b0 :: b1 :: b2 :: b3 :: rest)
  = b0 * 2 ^ 24 + b1 * 2 ^ 16 + b2 * 2 ^ 8 + b3.
Proof.
  unfold Go.is_byte, Go.BigEndian_Uint32. intros H0 H1 H2 H3. simpl nth.
  rewrite (lor_shiftl_add b3 b2 8) by lia.
  rewrite (lor_shiftl_add (b3 + b2 * 2 ^ 8) b1 16) by lia.
  rewrite (lor_shiftl_add (b3 + b2 * 2 ^ 8 + b1 * 2 ^ 16) b0 24) by lia.
  lia.
Qed.

Lemma big_endian_zeros (k : nat) (bs : list Z) :
  big_endian (repeat 0 k ++ bs) = big_endian bs.
Proof. induction k as [| k IH]; simpl; [reflexivity | exact IH]. Qed.

Lemma SetBytes_acc (bs : list Z) (acc : Z) :
  fold_left (fun a b => a * 256 + b) bs acc
  = acc * 256 ^ Z.of_nat (length bs) + big_endian bs.
Proof.
  revert acc. induction bs as [| b bs IH]; intros acc.
  - simpl. lia.
  - cbn [fold_left big_endian length]. rewrite IH.
    rewrite Nat2Z.inj_succ, Z.pow_succ_r by lia. lia.
Qed.

Lemma SetBytes_big_endian (bs : list Z) : Go.SetBytes bs = big_endian bs.
Proof. unfold Go.SetBytes. rewrite SetBytes_acc. lia. Qed.

Lemma big_endian_four (b0 b1 b2 b3 : Z) :
  big_endian [b0; b1; b2; b3] = b0 * 2 ^ 24 + b1 * 2 ^ 16 + b2 * 2 ^ 8 + b3.
Proof. cbn. lia. Qed.

Lemma Uint32_big_endian (bs : list Z) :
  Forall Go.is_byte bs -> (4 <= length bs)%nat ->
  Go.BigEndian_Uint32 bs = big_endian (firstn 4 bs).
Proof.
  intros Hb Hlen.
  destruct bs as [| b0 [| b1 [| b2 [| b3 rest]]]]; simpl in Hlen; try lia.
  repeat match goal with
         | Hf : Forall _ (_ :: _) |- _ =>
             let Hx := fresh "Hx" in
             pose proof (Forall_inv Hf) as Hx; apply Forall_inv_tail in Hf
         end.
  rewrite Uint32_four by assumption.
  cbn [firstn]. rewrite big_endian_four. reflexivity.
Qed.

Lemma Forall_is_byte_zeros (k : nat) (bs : list Z) :
  Forall Go.is_byte bs -> Forall Go.is_byte (repeat 0 k ++ bs).
Proof.
  intros Hb. induction k as [| k IH]; simpl; [exact Hb |].
  constructor; [unfold Go.is_byte; lia | exact IH].
Qed.

(** The exponent of l.115-120 is the big-endian value of the decoded bytes
    when there are fewer than four, of the first four otherwise. *)
Lemma exponentOf_short (e : list Z) :
  Forall Go.is_byte e -> (length e < 4)%nat -> exponentOf e = big_endian e.
Proof.
  intros Hb Hlen. unfold exponentOf.
  apply Nat.ltb_lt in Hlen as Hlt. rewrite Hlt.
  rewrite Uint32_big_endian.
  - rewrite firstn_all2.
    + apply big_endian_zeros.
    + rewrite length_app, repeat_length. lia.
  - apply Forall_is_byte_zeros, Hb.
  - rewrite length_app, repeat_length. lia.
Qed.

Lemma exponentOf_long (e : list Z) :
  Forall Go.is_byte e -> (4 <= length e)%nat -> exponentOf e = big_endian (firstn 4 e).
Proof.
  intros Hb Hlen. unfold exponentOf.
  assert (Hge : (length e <? 4)%nat = false) by (apply Nat.ltb_ge; lia).
  rewrite Hge. apply Uint32_big_endian; assumption.
Qed.

(** ** The base64 decoder *)

Lemma to_byte_is_byte (x : Z) : Go.is_byte (Go.to_byte x).
Proof.
  unfold Go.is_byte, Go.to_byte.
  change 255 with (Z.ones 8). rewrite Z.land_ones by lia.
  apply Z.mod_pos_bound. lia.
Qed.

Lemma quantumBytes_bytes (dbuf : list Z) (dlen : nat) :
  Forall Go.is_byte (Go.quantumBytes dbuf dlen).
Proof.
  unfold Go.quantumBytes. apply Forall_take.
  repeat constructor; apply to_byte_is_byte.
Qed.

Lemma decodeLoop_bytes (total : nat) (src : string) :
  forall si j dbuf bs,
    Go.decodeLoop total src si j dbuf = Ok bs -> Forall Go.is_byte bs.
Proof.
  induction src as [| c rest IH]; intros si j dbuf bs Hdec; cbn [Go.decodeLoop] in Hdec.
  - destruct j; [injection Hdec as <- | discriminate]. constructor.
  - destruct (Go.decodeMap c) as [out |].
    + destruct (j =? 3)%nat.
      * destruct (Go.decodeLoop total rest (S si) 0 []) as [more | e] eqn:Hmore;
          [| discriminate].
        assert (Hbs : bs = Go.quantumBytes (dbuf ++ [out]) 4 ++ more) by congruence.
        rewrite Hbs. apply Forall_app. split; [apply quantumBytes_bytes | eauto].
      * eauto.
    + destruct (Go.isNewline c); [eauto |].
      destruct (negb (Ascii.eqb c Go.padChar)); [discriminate |].
      destruct j as [| [| [| j]]]; try discriminate.
      * destruct (Go.skipNewlines rest (S si)) as [src1 si1].
        destruct src1 as [| c2 rest2]; [discriminate |].
        destruct (negb (Ascii.eqb c2 Go.padChar)); [discriminate |].
        destruct (Go.skipNewlines rest2 (S si1)) as [src2 si2].
        destruct src2; [| discriminate].
        assert (Hbs : bs = Go.quantumBytes dbuf 2) by congruence.
        rewrite Hbs. apply quantumBytes_bytes.
      * destruct (Go.skipNewlines rest (S si)) as [src2 si2].
        destruct src2; [| discriminate].
        assert (Hbs : bs = Go.quantumBytes dbuf (S (S (S j)))) by congruence.
        rewrite Hbs. apply quantumBytes_bytes.
Qed.

(** Every error of the decoder is a [CorruptInputError]. *)
Lemma decodeLoop_error (total : nat) (src : string) :
  forall si j dbuf e,
    Go.decodeLoop total src si j dbuf = Err e -> exists pos, e = CorruptInputError pos.
Proof.
  induction src as [| c rest IH]; intros si j dbuf e Hdec; cbn [Go.decodeLoop] in Hdec.
  - destruct j; inversion Hdec; eauto.
  - destruct (Go.decodeMap c) as [out |].
    + destruct (j =? 3)%nat.
      * destruct (Go.decodeLoop total rest (S si) 0 []) as [more | e'] eqn:Hmore;
          inversion Hdec; subst; eauto.
      * eauto.
    + destruct (Go.isNewline c); [eauto |].
      destruct (negb (Ascii.eqb c Go.padChar)); [inversion Hdec; eauto |].
      destruct j as [| [| [| j]]]; try (inversion Hdec; eauto; fail).
      * destruct (Go.skipNewlines rest (S si)) as [src1 si1].
        destruct src1 as [| c2 rest2]; [inversion Hdec; eauto |].
        destruct (negb (Ascii.eqb c2 Go.padChar)); [inversion Hdec; eauto |].
        destruct (Go.skipNewlines rest2 (S si1)) as [src2 si2].
        destruct src2; inversion Hdec; eauto.
      * destruct (Go.skipNewlines rest (S si)) as [src2 si2].
        destruct src2; inversion Hdec; eauto.
Qed.

Lemma base64URLDecode_bytes (str : string) (bs : list Z) :
  base64URLDecode str = Ok bs -> Forall Go.is_byte bs.
Proof. unfold base64URLDecode, Go.DecodeString. apply decodeLoop_bytes. Qed.

Lemma base64URLDecode_error (str : string) (e : error) :
  base64URLDecode str = Err e -> exists pos, e = CorruptInputError pos.
Proof. unfold base64URLDecode, Go.DecodeString. apply decodeLoop_error. Qed.

Lemma has_foreign_append (s t : string) :
  has_foreign s = true -> has_foreign (String.append s t) = true.
Proof.
  induction s as [| c s IH]; simpl; [discriminate |].
  intros Hs. apply orb_true_iff in Hs as [Hc | Hs].
  - rewrite Hc. reflexivity.
  - rewrite (IH Hs). apply orb_true_r.
Qed.

Lemma skipNewlines_foreign (src : string) (si : nat) :
  has_foreign src = true ->
  exists c rest, fst (Go.skipNewlines src si) = String c rest
                 /\ has_foreign (String c rest) = true.
Proof.
  revert si. induction src as [| c rest IH]; intros si Hf; [discriminate |].
  cbn [Go.skipNewlines]. destruct (Go.isNewline c) eqn:Hnl.
  - apply IH. simpl in Hf. unfold foreign in Hf. rewrite Hnl in Hf.
    destruct (Go.decodeMap c); simpl in Hf; exact Hf.
  - exists c, rest. split; [reflexivity | exact Hf].
Qed.

Lemma decodeLoop_foreign (total : nat) (src : string) :
  has_foreign src = true ->
  forall si j dbuf, exists pos,
    Go.decodeLoop total src si j dbuf = Err (CorruptInputError pos).
Proof.
  induction src as [| c rest IH]; intros Hf si j dbuf; [discriminate |].
  assert (Herr : forall r : result (list Z),
             (exists e, r = Err e) ->
             (forall e, r = Err e -> exists pos, e = CorruptInputError pos) ->
             exists pos, r = Err (CorruptInputError pos)).
  { intros r [e He] Hk. destruct (Hk e He) as [pos ->]. eauto. }
  apply Herr; [| intros e; apply decodeLoop_error].
  cbn [Go.decodeLoop]. simpl in Hf. unfold foreign in Hf.
  destruct (Go.decodeMap c) as [out |].
  - simpl in Hf. destruct (j =? 3)%nat.
    + destruct (IH Hf (S si) 0%nat []) as [pos ->]. eauto.
    + destruct (IH Hf (S si) (S j) (dbuf ++ [out])) as [pos ->]. eauto.
  - destruct (Go.isNewline c) eqn:Hnl.
    + simpl in Hf. destruct (IH Hf (S si) j dbuf) as [pos ->]. eauto.
    + destruct (Ascii.eqb c Go.padChar) eqn:Hpad; simpl; [| eauto].
      simpl in Hf.
      destruct j as [| [| [| j]]]; eauto.
      * destruct (skipNewlines_foreign rest (S si) Hf) as (c2 & rest2 & Hskip & Hf2).
        destruct (Go.skipNewlines rest (S si)) as [src1 si1]. simpl in Hskip. subst src1.
        destruct (negb (Ascii.eqb c2 Go.padChar)) eqn:Hc2; [eauto |].
        assert (Hrest2 : has_foreign rest2 = true).
        { simpl in Hf2. unfold foreign in Hf2. apply negb_false_iff in Hc2.
          rewrite Hc2 in Hf2. destruct (Go.decodeMap c2); simpl in Hf2;
            [exact Hf2 | rewrite andb_false_r in Hf2; exact Hf2]. }
        destruct (skipNewlines_foreign rest2 (S si1) Hrest2) as (c3 & rest3 & Hskip3 & _).
        destruct (Go.skipNewlines rest2 (S si1)) as [src2 si2]. simpl in Hskip3. subst src2.
        eauto.
      * destruct (skipNewlines_foreign rest (S si) Hf) as (c2 & rest2 & Hskip & _).
        destruct (Go.skipNewlines rest (S si)) as [src2 si2]. simpl in Hskip. subst src2.
        eauto.
Qed.

Lemma base64URLDecode_foreign (str : string) :
  has_foreign str = true -> exists pos, base64URLDecode str = Err (CorruptInputError pos).
Proof.
  intros Hf. unfold base64URLDecode, Go.DecodeString.
  apply decodeLoop_foreign.
  destruct (0 <? String.length str mod 4)%nat; [apply has_foreign_append |]; exact Hf.
Qed.

(** ** The key decoder *)

Lemma append_empty_r (s : string) : String.append s EmptyString = s.
Proof.
  induction s as [| c s IH]; [reflexivity |].
  change (String c (String.append s EmptyString) = String c s). f_equal. exact IH.
Qed.

Lemma length_append (s t : string) :
  String.length (String.append s t) = (String.length s + String.length t)%nat.
Proof.
  induction s as [| c s IH]; [reflexivity |].
  change (S (String.length (String.append s t)) = S (String.length s + String.length t)).
  f_equal. exact IH.
Qed.

Lemma length_Repeat_pad (n : nat) : String.length (Go.strings_Repeat "=" n) = n.
Proof.
  induction n as [| n IH]; [reflexivity |].
  change (S (String.length (Go.strings_Repeat "=" n)) = S n). f_equal. exact IH.
Qed.

Lemma base64URLDecode_repad (str : string) :
  base64URLDecode str = Go.DecodeString (repad str)
  /\ (String.length (repad str) mod 4 = 0)%nat.
Proof.
  unfold base64URLDecode, repad.
  rewrite length_append, length_Repeat_pad.
  pose proof (Nat.mod_upper_bound (String.length str) 4 ltac:(lia)) as Hlt.
  pose proof (Nat.div_mod_eq (String.length str) 4) as Hdiv.
  remember (String.length str mod 4)%nat as l eqn:Hl.
  destruct l as [| l].
  - simpl. rewrite append_empty_r. split; [reflexivity |].
    rewrite Nat.add_0_r. symmetry. exact Hl.
  - assert (Hpad : ((4 - S l) mod 4 = 4 - S l)%nat) by (apply Nat.mod_small; lia).
    rewrite Hpad. split; [reflexivity |].
    replace (String.length str + (4 - S l))%nat
      with ((String.length str / 4 + 1) * 4)%nat by lia.
    apply Nat.Div0.mod_mul.
Qed.

Lemma exponentOf_spec (e : list Z) :
  Forall Go.is_byte e -> exponentOf e = spec_exponent e.
Proof.
  intros Hb. unfold spec_exponent.
  destruct (length e <? 4)%nat eqn:Hlen.
  - apply Nat.ltb_lt in Hlen. rewrite exponentOf_short by assumption.
    symmetry. apply big_endian_zeros.
  - apply Nat.ltb_ge in Hlen. apply exponentOf_long; assumption.
Qed.

Lemma decodeKey_Ok (jwk : JWK.t) (n e : list Z) :
  base64URLDecode (JWK.N jwk) = Ok n ->
  base64URLDecode (JWK.E jwk) = Ok e ->
  decodeKey jwk = Ok (rsa.mk (big_endian n) (spec_exponent e)).
Proof.
  intros Hn He. unfold decodeKey. rewrite Hn, He.
  rewrite SetBytes_big_endian, exponentOf_spec; [reflexivity |].
  eapply base64URLDecode_bytes, He.
Qed.

Lemma decodeKey_Err (jwk : JWK.t) :
  is_Ok (base64URLDecode (JWK.N jwk)) = false
  \/ is_Ok (base64URLDecode (JWK.E jwk)) = false ->
  exists pos, decodeKey jwk = Err (CorruptInputError pos).
Proof.
  unfold decodeKey. intros [Hn | He].
  - destruct (base64URLDecode (JWK.N jwk)) as [n | err] eqn:Hdec; [discriminate |].
    destruct (base64URLDecode_error _ _ Hdec) as [pos ->]. eauto.
  - destruct (base64URLDecode (JWK.N jwk)) as [n | err] eqn:Hdec.
    + destruct (base64URLDecode (JWK.E jwk)) as [e | err] eqn:Hdece; [discriminate |].
      destruct (base64URLDecode_error _ _ Hdece) as [pos ->]. eauto.
    + destruct (base64URLDecode_error _ _ Hdec) as [pos ->]. eauto.
Qed.


(** ** The JWKS cache *)

Lemma Hour_lt_time_Sub (t u : Z) :
  (Go.Hour <? Go.time_Sub t u) = (Go.Hour <? t - u).
Proof.
  unfold Go.time_Sub, Go.Hour, Go.maxDuration, Go.minDuration, Go.Second.
  destruct (Z.ltb_spec (3600 * 1000000000) (t - u));
    [apply Z.ltb_lt | apply Z.ltb_ge]; lia.
Qed.

Lemma refreshed_stale (st : State) : stale st -> refreshed st = set_jwksCache ∅ st.
Proof.
  unfold stale, refreshed. intros Hs. rewrite Hour_lt_time_Sub.
  apply Z.ltb_lt in Hs. rewrite Hs. reflexivity.
Qed.

Lemma refreshed_fresh (st : State) : ~ stale st -> refreshed st = st.
Proof.
  unfold stale, refreshed. intros Hs. rewrite Hour_lt_time_Sub.
  apply Z.ltb_nlt in Hs. rewrite Hs. reflexivity.
Qed.

Lemma rangeKeys_unfold (kid : string) (keys : list JWK.t) (st : State) :
  rangeKeys kid keys st =
  match firstMatch kid keys with
  | None => (Err ErrKeyNotFound, st)
  | Some jwk =>
      match decodeKey jwk with
      | Ok key => (Ok key, stored (JWK.Kid jwk) key st)
      | Err e => (Err e, st)
      end
  end.
Proof.
  induction keys as [| jwk keys IH]; [reflexivity |].
  cbn [rangeKeys firstMatch List.find].
  destruct (String.eqb (JWK.Kid jwk) kid); [| exact IH].
  unfold bind, lift. destruct (decodeKey jwk) as [key | e]; reflexivity.
Qed.

Lemma firstMatch_Kid (kid : string) (keys : list JWK.t) (jwk : JWK.t) :
  firstMatch kid keys = Some jwk -> JWK.Kid jwk = kid.
Proof.
  intros Hf. apply List.find_some in Hf as [_ Heq].
  apply String.eqb_eq, Heq.
Qed.

Lemma getPublicKey_unfold (kid : string) (st : State) :
  getPublicKey kid st =
  let st1 := refreshed st in
  match jwksCache (validator st1) !! kid with
  | Some key => (Ok key, st1)
  | None =>
      match net (world st1) (length (httpGets (world st1))) (JwksURL (validator st1)) with
      | HttpFailure => (Err ErrHttpGet, requested st1)
      | HttpBadBody => (Err ErrJSONDecode, requested st1)
      | HttpJWKS jwks => rangeKeys kid (Keys jwks) (requested st1)
      end
  end.
Proof.
  cbv [getPublicKey refreshed bind gets time_Since time_Now modify ret http_Get fail
         requested].
  destruct (Go.Hour <? Go.time_Sub (clock (world st)) (lastUpdated (validator st))).
  - destruct (jwksCache (validator (set_jwksCache ∅ st)) !! kid); [reflexivity |].
    destruct (net _ _ _); reflexivity.
  - destruct (jwksCache (validator st) !! kid); [reflexivity |].
    destruct (net _ _ _); reflexivity.
Qed.

(** C5: the key decoder.  A field is decoded after '=' has been appended up
    to a length that is a multiple of 4; the modulus is the big-endian value of
    its bytes; fewer than four exponent bytes are left-padded with zero bytes
    to four and read as a big-endian 32-bit integer (which is their own
    big-endian value: 01 00 01 gives 65537), of four or more the first four
    are read. *)
Theorem key_decoder_correct (jwk : JWK.t) (n e : list Z) :
  base64URLDecode (JWK.N jwk) = Ok n ->
  base64URLDecode (JWK.E jwk) = Ok e ->
  (forall str, base64URLDecode str = Go.DecodeString (repad str)
               /\ (String.length (repad str) mod 4 = 0)%nat)
  /\ decodeKey jwk = Ok (rsa.mk (big_endian n) (exponentOf e))
  /\ exponentOf e = spec_exponent e
  /\ ((length e < 4)%nat ->
        exponentOf e = big_endian (repeat 0 (4 - length e) ++ e)
        /\ exponentOf e = big_endian e)
  /\ ((4 <= length e)%nat -> exponentOf e = big_endian (firstn 4 e))
  /\ exponentOf [1; 0; 1] = 65537.
Proof.
  intros Hn He.
  pose proof (base64URLDecode_bytes _ _ He) as Hbytes.
  split; [exact base64URLDecode_repad |].
  split.
  { rewrite (decodeKey_Ok jwk n e Hn He), exponentOf_spec by exact Hbytes. reflexivity. }
  split; [apply exponentOf_spec, Hbytes |].
  split.
  { intros Hlen. split.
    - rewrite exponentOf_short by assumption. symmetry. apply big_endian_zeros.
    - apply exponentOf_short; assumption. }
  split; [intros Hlen; apply exponentOf_long; assumption | reflexivity].
Qed.

Lemma key_decoder_correct_witness :
  base64URLDecode (JWK.N testVectorKey) = Ok [222; 173; 190; 239]
  /\ base64URLDecode (JWK.E testVectorKey) = Ok [1; 0; 1]
  /\ decodeKey testVectorKey = Ok (rsa.mk 3735928559 65537).
Proof.
  split; [reflexivity |]. split; [reflexivity |].
  exact (proj1 (proj2 (key_decoder_correct testVectorKey [222; 173; 190; 239] [1; 0; 1]
                         eq_refl eq_refl))).
Defined.

(** An empty exponent field decodes: to no bytes, hence to the exponent 0. *)
Example empty_exponent_decodes :
  JWK.E emptyExponentKey = EmptyString
  /\ base64URLDecode EmptyString = Ok []
  /\ decodeKey emptyExponentKey = Ok (rsa.mk 3735928559 0).
Proof. repeat split. Qed.

(** C2 as stated fails: a record with an empty exponent field is decoded, not
    rejected. *)
Lemma empty_field_not_rejected :
  ~ (forall jwk : JWK.t,
        JWK.N jwk = EmptyString \/ JWK.E jwk = EmptyString
        \/ has_foreign (JWK.N jwk) = true \/ has_foreign (JWK.E jwk) = true ->
        exists e, decodeKey jwk = Err e /\ KeyDecodeError e = true).
Proof.
  intros Hclaim.
  destruct (Hclaim emptyExponentKey) as (e & He & _).
  - right. left. reflexivity.
  - vm_compute in He. discriminate He.
Qed.

(** C2, amended: a record one of whose fields the base64 decoder rejects
    after re-padding is not decoded: [decodeKey] fails with the decoder's
    error and [getPublicKey]'s loop returns it and stores nothing.  A field
    with a character outside the URL-safe alphabet (other than '=', CR and
    LF) is rejected.  An empty field is not: it decodes to no bytes, which
    gives the exponent 0, or the modulus 0. *)
Theorem undecodable_key_rejected (jwk : JWK.t) :
  (is_Ok (base64URLDecode (JWK.N jwk)) = false
   \/ is_Ok (base64URLDecode (JWK.E jwk)) = false ->
   exists e, decodeKey jwk = Err e /\ KeyDecodeError e = true
             /\ forall kid keys st,
                  firstMatch kid keys = Some jwk -> rangeKeys kid keys st = (Err e, st))
  /\ (has_foreign (JWK.N jwk) = true \/ has_foreign (JWK.E jwk) = true ->
      is_Ok (base64URLDecode (JWK.N jwk)) = false
      \/ is_Ok (base64URLDecode (JWK.E jwk)) = false)
  /\ (JWK.E jwk = EmptyString ->
      forall n, base64URLDecode (JWK.N jwk) = Ok n ->
                decodeKey jwk = Ok (rsa.mk (big_endian n) 0))
  /\ (JWK.N jwk = EmptyString ->
      forall e, base64URLDecode (JWK.E jwk) = Ok e ->
                decodeKey jwk = Ok (rsa.mk 0 (spec_exponent e))).
Proof.
  split; [| split; [| split]].
  - intros Hbad. destruct (decodeKey_Err jwk Hbad) as [pos Hdec].
    exists (CorruptInputError pos). split; [exact Hdec |]. split; [reflexivity |].
    intros kid keys st Hfind. rewrite rangeKeys_unfold, Hfind, Hdec. reflexivity.
  - intros [Hf | Hf]; [left | right];
      destruct (base64URLDecode_foreign _ Hf) as [pos ->]; reflexivity.
  - intros Hempty n Hn.
    assert (He : base64URLDecode (JWK.E jwk) = Ok []) by (rewrite Hempty; reflexivity).
    rewrite (decodeKey_Ok jwk n [] Hn He). reflexivity.
  - intros Hempty e He.
    assert (Hn : base64URLDecode (JWK.N jwk) = Ok []) by (rewrite Hempty; reflexivity).
    rewrite (decodeKey_Ok jwk [] e Hn He). reflexivity.
Qed.

Lemma undecodable_key_rejected_witness :
  has_foreign (JWK.E (JWK.mk "k1" "RS256" "RSA" "AQ*B" "3q2-7w" "sig")) = true
  /\ decodeKey (JWK.mk "k1" "RS256" "RSA" "AQ*B" "3q2-7w" "sig")
     = Err (CorruptInputError 2).
Proof.
  split; [reflexivity |].
  pose proof (proj1 (undecodable_key_rejected (JWK.mk "k1" "RS256" "RSA" "AQ*B" "3q2-7w" "sig"))
                (or_intror eq_refl)) as (e & Hdec & _).
  rewrite Hdec. vm_compute in Hdec. congruence.
Defined.

Lemma getPublicKey_hit (kid : string) (st : State) (key : rsa.PublicKey) :
  ~ stale st -> jwksCache (validator st) !! kid = Some key ->
  getPublicKey kid st = (Ok key, st).
Proof.
  intros Hfresh Hhit. rewrite getPublicKey_unfold, (refreshed_fresh st Hfresh).
  cbn zeta. rewrite Hhit. reflexivity.
Qed.

Lemma getPublicKey_stale (kid : string) (st : State) :
  stale st ->
  getPublicKey kid st =
  let st1 := requested (set_jwksCache ∅ st) in
  match net (world st) (length (httpGets (world st))) (JwksURL (validator st)) with
  | HttpFailure => (Err ErrHttpGet, st1)
  | HttpBadBody => (Err ErrJSONDecode, st1)
  | HttpJWKS jwks =>
      match firstMatch kid (Keys jwks) with
      | None => (Err ErrKeyNotFound, st1)
      | Some jwk =>
          match decodeKey jwk with
          | Ok key => (Ok key, stored kid key st1)
          | Err e => (Err e, st1)
          end
      end
  end.
Proof.
  intros Hs. rewrite getPublicKey_unfold, (refreshed_stale st Hs). cbn zeta.
  change (jwksCache (validator (set_jwksCache ∅ st))) with (∅ : gmap string rsa.PublicKey).
  rewrite lookup_empty.
  change (world (set_jwksCache ∅ st)) with (world st).
  change (JwksURL (validator (set_jwksCache ∅ st))) with (JwksURL (validator st)).
  destruct (net _ _ _) as [| | jwks]; try reflexivity.
  rewrite rangeKeys_unfold.
  destruct (firstMatch kid (Keys jwks)) as [jwk |] eqn:Hfind; [| reflexivity].
  rewrite (firstMatch_Kid _ _ _ Hfind). reflexivity.
Qed.

Lemma getPublicKey_Ok_cached (kid : string) (st st' : State) (key : rsa.PublicKey) :
  getPublicKey kid st = (Ok key, st') -> jwksCache (validator st') !! kid = Some key.
Proof.
  rewrite getPublicKey_unfold. cbn zeta.
  destruct (jwksCache (validator (refreshed st)) !! kid) as [key' |] eqn:Hhit.
  - intros Heq. injection Heq as <- <-. exact Hhit.
  - destruct (net _ _ _) as [| | jwks]; try discriminate.
    rewrite rangeKeys_unfold.
    destruct (firstMatch kid (Keys jwks)) as [jwk |] eqn:Hfind; [| discriminate].
    destruct (decodeKey jwk) as [key' | e]; [| discriminate].
    intros Heq. injection Heq as <- <-.
    rewrite (firstMatch_Kid _ _ _ Hfind). cbn. apply lookup_insert_eq.
Qed.

Lemma stale_set_clock (t : Z) (st : State) :
  stale (set_clock t st) <-> Go.Hour < t - lastUpdated (validator st).
Proof. unfold stale. cbn. reflexivity. Qed.



Lemma getPublicKey_stale_requests (kid : string) (st : State) :
  stale st ->
  httpGets (world (snd (getPublicKey kid st)))
  = JwksURL (validator st) :: httpGets (world st).
Proof.
  intros Hs. rewrite (getPublicKey_stale kid st Hs). cbn zeta.
  destruct (net _ _ _) as [| | jwks]; try reflexivity.
  destruct (firstMatch kid (Keys jwks)) as [jwk |]; [| reflexivity].
  destruct (decodeKey jwk); reflexivity.
Qed.

(** What a call of [getPublicKey] leaves alone. *)
Lemma getPublicKey_frame (kid : string) (st : State) :
  let st' := snd (getPublicKey kid st) in
  clock (world st') = clock (world st)
  /\ verifies (world st') = verifies (world st)
  /\ net (world st') = net (world st)
  /\ JwksURL (validator st') = JwksURL (validator st)
  /\ UserPoolID (validator st') = UserPoolID (validator st)
  /\ ClientID (validator st') = ClientID (validator st).
Proof.
  rewrite getPublicKey_unfold. cbn zeta.
  assert (Hr : clock (world (refreshed st)) = clock (world st)
               /\ verifies (world (refreshed st)) = verifies (world st)
               /\ net (world (refreshed st)) = net (world st)
               /\ JwksURL (validator (refreshed st)) = JwksURL (validator st)
               /\ UserPoolID (validator (refreshed st)) = UserPoolID (validator st)
               /\ ClientID (validator (refreshed st)) = ClientID (validator st)).
  { unfold refreshed. destruct (Go.Hour <? _); repeat split. }
  destruct (jwksCache (validator (refreshed st)) !! kid); [exact Hr |].
  destruct (net _ _ _) as [| | jwks]; try exact Hr.
  rewrite rangeKeys_unfold.
  destruct (firstMatch kid (Keys jwks)) as [jwk |]; [| exact Hr].
  destruct (decodeKey jwk); exact Hr.
Qed.

(** C4: after a call that fetched the set and decoded the key, two calls for
    the same key id made while no more than an hour has passed since
    [lastUpdated] return the key without asking the endpoint; a call made
    after more than an hour asks it exactly once. *)
Theorem cache_determinism (kid : string) (st0 st1 : State) (key : rsa.PublicKey) :
  getPublicKey kid st0 = (Ok key, st1) ->
  httpGets (world st1) = JwksURL (validator st0) :: httpGets (world st0) ->
  lastUpdated (validator st1) = clock (world st0)
  /\ (forall t1 t2,
      t1 - lastUpdated (validator st1) <= Go.Hour ->
      t2 - lastUpdated (validator st1) <= Go.Hour ->
      getPublicKey kid (set_clock t1 st1) = (Ok key, set_clock t1 st1)
      /\ getPublicKey kid (set_clock t2 (set_clock t1 st1)) = (Ok key, set_clock t2 st1)
      /\ httpGets (world (set_clock t2 st1)) = httpGets (world st1))
  /\ (forall t,
        Go.Hour < t - lastUpdated (validator st1) ->
        httpGets (world (snd (getPublicKey kid (set_clock t st1))))
        = JwksURL (validator st1) :: httpGets (world st1)).
Proof.
  intros Hcall Hfetched.
  pose proof (getPublicKey_Ok_cached kid st0 st1 key Hcall) as Hcached.
  split; [| split].
  - rewrite getPublicKey_unfold in Hcall. cbn zeta in Hcall.
    assert (Hclock : clock (world (refreshed st0)) = clock (world st0))
      by (unfold refreshed; destruct (Go.Hour <? _); reflexivity).
    assert (Hgets : httpGets (world (refreshed st0)) = httpGets (world st0))
      by (unfold refreshed; destruct (Go.Hour <? _); reflexivity).
    destruct (jwksCache (validator (refreshed st0)) !! kid) as [key' |].
    + injection Hcall as _ <-. rewrite Hgets in Hfetched.
      apply (f_equal (@length string)) in Hfetched. cbn in Hfetched. lia.
    + destruct (net _ _ _) as [| | jwks]; try discriminate Hcall.
      rewrite rangeKeys_unfold in Hcall.
      destruct (firstMatch kid (Keys jwks)) as [jwk |]; [| discriminate Hcall].
      destruct (decodeKey jwk) as [key' | e]; [| discriminate Hcall].
      injection Hcall as _ <-. exact Hclock.
  - intros t1 t2 H1 H2.
    split; [| split; [| reflexivity]].
    + apply getPublicKey_hit; [| exact Hcached].
      rewrite stale_set_clock. lia.
    + change (set_clock t2 (set_clock t1 st1)) with (set_clock t2 st1).
      apply getPublicKey_hit; [| exact Hcached].
      rewrite stale_set_clock. lia.
  - intros t Ht.
    apply (getPublicKey_stale_requests kid (set_clock t st1)).
    apply stale_set_clock. exact Ht.
Qed.

(** ** The token validator *)

Lemma GetSigningMethod_RSA (alg name : string) :
  jwt.GetSigningMethod alg = Some (jwt.SigningMethodRSA name) -> name = alg.
Proof.
  unfold jwt.GetSigningMethod.
  repeat match goal with
         | |- context [if ?b then _ else _] => destruct b
         end; congruence.
Qed.

Lemma checkClaims_frame (region : string) (st st' : State) (claims : gmap string value) :
  clock (world st') = clock (world st) ->
  UserPoolID (validator st') = UserPoolID (validator st) ->
  ClientID (validator st') = ClientID (validator st) ->
  checkClaims region st' claims = checkClaims region st claims.
Proof. unfold checkClaims. intros -> -> ->. reflexivity. Qed.

Section ValidatorProps.
Variable cognitoRegion : string.
Context {prim : jwt.Primitives}.

Lemma Parse_unfold (ts : string) (kf : jwt.Token -> M State rsa.PublicKey) (st : State) :
  jwt.Parse ts kf st =
  match jwt.ParseUnverified ts with
  | Err e => (Err e, st)
  | Ok (token, seg) =>
      match kf token st with
      | (Err e, st1) => (Err (jwt.wrapKeyError e), st1)
      | (Ok key, st1) =>
          if jwt.Verify (jwt.Method token) (jwt.signingString seg)
                        (jwt.segSignature seg) key
          then match jwt.MapClaims_Valid (jwt.Claims token)
                                         (Go.Unix (clock (world st1))) with
               | Some vErr => (Err vErr, verified st1)
               | None =>
                   (Ok (jwt.mkToken (jwt.Raw token) (jwt.Method token) (jwt.Header token)
                                    (jwt.Claims token) (jwt.segSignature seg) true),
                    verified st1)
               end
          else (Err (ValidationError ErrSignatureInvalid
                                     jwt.ValidationErrorSignatureInvalid),
                verified st1)
      end
  end.
Proof.
  cbv [jwt.Parse bind lift ret fail gets time_Now jwt.Method_Verify verified].
  destruct (jwt.ParseUnverified ts) as [[token seg] | e]; [| reflexivity].
  cbn [fst snd jwt.Method jwt.Claims jwt.Raw jwt.Header jwt.Signature].
  destruct (kf token st) as [[key | e] st1]; [| reflexivity].
  destruct (jwt.Verify _ _ _ _); cbn [negb]; [| reflexivity].
  destruct (jwt.MapClaims_Valid _ _); reflexivity.
Qed.

Lemma ValidateToken_unfold (ts : string) (st : State) :
  ValidateToken cognitoRegion ts st =
  match jwt.Parse ts keyFunc st with
  | (Err e, st') => (Err e, st')
  | (Ok token, st') =>
      if jwt.Valid token
      then match checkClaims cognitoRegion st' (jwt.Claims token) with
           | Some e => (Err e, st')
           | None => (Ok token, st')
           end
      else (Err ErrInvalidToken, st')
  end.
Proof.
  cbv [ValidateToken bind ret fail gets time_Now failIf checkClaims claimIs expectedIssuer].
  destruct (jwt.Parse ts keyFunc st) as [[token | e] st']; [| reflexivity].
  destruct (jwt.Valid token); [| reflexivity].
  destruct (jwt.VerifyExpiresAt _ _ _); cbn [negb]; [| reflexivity].
  destruct (jwt.VerifyIssuer _ _ _); cbn [negb]; [| reflexivity].
  destruct (jwt.Claims token !! "client_id"%string) as [c |];
    [destruct (iface_eqb_string c _) |]; cbn [negb]; try reflexivity;
    (destruct (jwt.Claims token !! "aud"%string) as [a |];
     [destruct (iface_eqb_string a _) |]; reflexivity).
Qed.

(** One call of [ValidateToken], step by step. *)
Lemma ValidateToken_run (ts : string) (st : State) :
  ValidateToken cognitoRegion ts st =
  match jwt.decodeSegments ts with
  | None => (Err (ValidationError ErrTokenMalformed jwt.ValidationErrorMalformed), st)
  | Some seg =>
      match as_string (jwt.segHeader seg !! "alg"%string) with
      | None =>
          (Err (ValidationError ErrAlgUnspecified jwt.ValidationErrorUnverifiable), st)
      | Some alg =>
          match jwt.GetSigningMethod alg with
          | None =>
              (Err (ValidationError ErrAlgUnavailable jwt.ValidationErrorUnverifiable), st)
          | Some (jwt.SigningMethodRSA name) =>
              match as_string (jwt.segHeader seg !! "kid"%string) with
              | None =>
                  (Err (ValidationError ErrKidNotFound jwt.ValidationErrorUnverifiable), st)
              | Some kid =>
                  match getPublicKey kid st with
                  | (Err e, st1) => (Err (jwt.wrapKeyError e), st1)
                  | (Ok key, st1) =>
                      if jwt.Verify (jwt.SigningMethodRSA name) (jwt.signingString seg)
                                    (jwt.segSignature seg) key
                      then
                        match jwt.MapClaims_Valid (jwt.segClaims seg)
                                                  (Go.Unix (clock (world st))) with
                        | Some vErr => (Err vErr, verified st1)
                        | None =>
                            match checkClaims cognitoRegion st (jwt.segClaims seg) with
                            | Some e => (Err e, verified st1)
                            | None =>
                                (Ok (jwt.mkToken ts (jwt.SigningMethodRSA name)
                                       (jwt.segHeader seg) (jwt.segClaims seg)
                                       (jwt.segSignature seg) true),
                                 verified st1)
                            end
                        end
                      else (Err (ValidationError ErrSignatureInvalid
                                                 jwt.ValidationErrorSignatureInvalid),
                            verified st1)
                  end
              end
          | Some _ =>
              (Err (ValidationError ErrUnexpectedAlg jwt.ValidationErrorUnverifiable), st)
          end
      end
  end.
Proof.
  rewrite ValidateToken_unfold, Parse_unfold. unfold jwt.ParseUnverified.
  destruct (jwt.decodeSegments ts) as [seg |]; [| reflexivity].
  destruct (as_string (jwt.segHeader seg !! "alg"%string)) as [alg |]; [| reflexivity].
  destruct (jwt.GetSigningMethod alg) as [m |]; [| reflexivity].
  unfold keyFunc. cbn [jwt.Method jwt.Header jwt.Claims jwt.Raw].
  destruct m; try reflexivity.
  destruct (as_string (jwt.segHeader seg !! "kid"%string)) as [kid |]; [| reflexivity].
  pose proof (getPublicKey_frame kid st) as (Hclock & _ & _ & _ & Hpool & Hclient).
  destruct (getPublicKey kid st) as [[key | e] st1]; [| reflexivity].
  cbn [snd] in Hclock, Hpool, Hclient.
  destruct (jwt.Verify _ _ _ _); [| reflexivity].
  rewrite Hclock.
  destruct (jwt.MapClaims_Valid _ _); [reflexivity |].
  cbn [jwt.Valid jwt.Claims].
  rewrite (checkClaims_frame cognitoRegion st (verified st1)) by assumption.
  reflexivity.
Qed.

End ValidatorProps.





Section ValidatorClaims.
Variables cognitoRegion cognitoUserPoolID cognitoClientID : string.
Context {prim : jwt.Primitives}.


Lemma Parse_Ok_Valid (ts : string) (kf : jwt.Token -> M State rsa.PublicKey)
      (st st' : State) (tok : jwt.Token) :
  jwt.Parse ts kf st = (Ok tok, st') -> jwt.Valid tok = true.
Proof.
  rewrite Parse_unfold.
  destruct (jwt.ParseUnverified ts) as [[token seg] | e]; [| discriminate].
  destruct (kf token st) as [[key | e] st1]; [| discriminate].
  destruct (jwt.Verify _ _ _ _); [| discriminate].
  destruct (jwt.MapClaims_Valid _ _); [discriminate |].
  intros Heq. injection Heq as <- _. reflexivity.
Qed.

(** C8: a token whose header names an algorithm that is not one of the RSA
    methods is rejected with the unsupported-algorithm error, in the state
    the call started in: [Method.Verify] has not run (and nothing was
    fetched). *)
Theorem unsupported_algorithm_rejected (ts : string) (st : State)
        (seg : jwt.Segments) (alg : string) :
  jwt.decodeSegments ts = Some seg ->
  as_string (jwt.segHeader seg !! "alg"%string) = Some alg ->
  (forall name, jwt.GetSigningMethod alg <> Some (jwt.SigningMethodRSA name)) ->
  exists e,
    ValidateToken cognitoRegion ts st = (Err e, st)
    /\ UnsupportedAlgorithmError e = true
    /\ verifies (world (snd (ValidateToken cognitoRegion ts st))) = verifies (world st).
Proof.
  intros Hdec Halg Hnot. rewrite ValidateToken_run, Hdec, Halg.
  destruct (jwt.GetSigningMethod alg) as [[name | | | | |] |] eqn:Hm;
    try (eexists; repeat split; reflexivity).
  exfalso. exact (Hnot name eq_refl).
Qed.





(** C10: when the token validates and its claims have no string "sub", the
    handler answers with the Allow policy for the request's method ARN, an
    empty principal and the context entry sub the empty string. *)
Theorem handler_allows_without_sub (event : events.APIGatewayCustomAuthorizerRequest)
        (w w' : World) (claims : gmap string value) :
  ValidateTokenForAPIGateway cognitoRegion
    (Go.strings_TrimPrefix (events.AuthorizationToken event) "Bearer ")
    cognitoUserPoolID cognitoClientID w = (Ok claims, w') ->
  as_string (claims !! "sub"%string) = None ->
  exists context,
    handleRequest cognitoRegion cognitoUserPoolID cognitoClientID event w
    = (Ok (events.mkResponse EmptyString
             (events.mkPolicy "2012-10-17"
                [events.mkStatement ["execute-api:Invoke"%string] "Allow"
                                    [events.MethodArn event]])
             context), w')
    /\ context !! "sub"%string = Some (VString EmptyString).
Proof.
  intros Hval Hsub. unfold handleRequest, bind. rewrite Hval, Hsub.
  cbn [default from_option]. unfold ret, generatePolicy.
  eexists. split; [reflexivity |].
  destruct (as_string (claims !! "cognito:username"%string)),
    (as_string (claims !! "email"%string));
    repeat (rewrite lookup_insert_ne by discriminate);
    apply lookup_singleton_eq.
Qed.

End ValidatorClaims.

(** ** The properties on the test vectors *)

Module FixtureFacts.
Import Fixture.

Lemma resolve_k1 : getPublicKey "k1" state0 = (Ok key1, state1).
Proof. vm_compute. reflexivity. Qed.


(** The hour is counted from [lastUpdated], which the fetch of any key
    renews: "k1", fetched at [now], is still served from the cache 100
    minutes later when "k2" was fetched after 50 minutes. *)
Example entry_served_after_an_hour :
  let s1 := snd (getPublicKey "k1" state0') in
  let s2 := snd (getPublicKey "k2" (set_clock (now + minutes 50) s1)) in
  let s3 := set_clock (now + minutes 100) s2 in
  getPublicKey "k1" s3 = (Ok key1, s3)
  /\ httpGets (world s3) = [url; url]
  /\ lastUpdated (validator s3) = now + minutes 50.
Proof. vm_compute. repeat split. Qed.
End FixtureFacts.





Lemma unsupported_algorithm_rejected_witness :
  exists e,
    ValidateToken (prim := Fixture.primitives) Fixture.region "tok-hs256" Fixture.state0
    = (Err e, Fixture.state0)
    /\ UnsupportedAlgorithmError e = true
    /\ verifies (world (snd (ValidateToken (prim := Fixture.primitives) Fixture.region
                               "tok-hs256" Fixture.state0)))
       = verifies (world Fixture.state0).
Proof.
  apply (unsupported_algorithm_rejected (prim := Fixture.primitives) Fixture.region
           "tok-hs256" Fixture.state0
           (Fixture.segments (Fixture.header "HS256" (Some "k1"%string))
                             (Fixture.claims [Fixture.sub1; Fixture.exp1h]))
           "HS256").
  - reflexivity.
  - vm_compute. reflexivity.
  - intros name. vm_compute. discriminate.
Defined.



Lemma handler_allows_without_sub_witness :
  as_string (Fixture.claims [Fixture.exp1h] !! "sub"%string) = None
  /\ exists context,
       handleRequest (prim := Fixture.primitives) Fixture.region Fixture.pool
         Fixture.client (Fixture.request "tok-no-sub") Fixture.world0
       = (Ok (events.mkResponse EmptyString
                (events.mkPolicy "2012-10-17"
                   [events.mkStatement ["execute-api:Invoke"%string] "Allow"
                      [events.MethodArn (Fixture.request "tok-no-sub")]])
                context),
          Fixture.world1)
       /\ context !! "sub"%string = Some (VString EmptyString).
Proof.
  split; [vm_compute; reflexivity |].
  apply (handler_allows_without_sub (prim := Fixture.primitives) Fixture.region
           Fixture.pool Fixture.client (Fixture.request "tok-no-sub") Fixture.world0
           Fixture.world1 (Fixture.claims [Fixture.exp1h]));
    vm_compute; reflexivity.
Defined.


Lemma cache_determinism_witness :
  getPublicKey "k1" Fixture.state0 = (Ok Fixture.key1, Fixture.state1)
  /\ getPublicKey "k1" (set_clock (Fixture.now + Go.Hour) Fixture.state1)
     = (Ok Fixture.key1, set_clock (Fixture.now + Go.Hour) Fixture.state1)
  /\ httpGets (world (snd (getPublicKey "k1"
                             (set_clock (Fixture.now + Go.Hour + 1) Fixture.state1))))
     = [Fixture.url; Fixture.url].
Proof.
  assert (Hfetched : httpGets (world Fixture.state1)
                     = JwksURL (validator Fixture.state0)
                       :: httpGets (world Fixture.state0))
    by (vm_compute; reflexivity).
  pose proof (cache_determinism "k1" Fixture.state0 Fixture.state1 Fixture.key1
                FixtureFacts.resolve_k1 Hfetched) as (_ & Hin & Hafter).
  assert (Hwithin : Fixture.now + Go.Hour - lastUpdated (validator Fixture.state1)
                    <= Go.Hour)
    by (vm_compute; discriminate).
  assert (Hbeyond : Go.Hour
                    < Fixture.now + Go.Hour + 1 - lastUpdated (validator Fixture.state1))
    by (vm_compute; reflexivity).
  destruct (Hin _ _ Hwithin Hwithin) as (Hhit & _ & _).
  specialize (Hafter _ Hbeyond).
  split; [exact FixtureFacts.resolve_k1 |].
  split; [exact Hhit |].
  vm_compute in Hafter. vm_compute. exact Hafter.
Defined.

(** * Further properties *)

(** ** base64URLDecode inverts the base64url encoding *)

Lemma list_ind3 (P : list Z -> Prop) :
  P [] -> (forall a, P [a]) -> (forall a b, P [a; b]) ->
  (forall a b c l, P l -> P (a :: b :: c :: l)) ->
  forall l, P l.
Proof.
  intros H0 H1 H2 H3 l.
  assert (Hall : P l /\ (forall a, P (a :: l)) /\ (forall a b, P (a :: b :: l))).
  { induction l as [| x l (IH0 & IH1 & IH2)].
    - auto.
    - split; [apply IH1 |]. split; [intros a; apply IH2 |].
      intros a b. apply H3, IH0. }
  apply Hall.
Qed.

Lemma encodeChar_decodeMap_nat (n : nat) :
  (n < 64)%nat -> Go.decodeMap (encodeChar (Z.of_nat n)) = Some (Z.of_nat n).
Proof.
  intros Hn. do 64 (destruct n as [| n]; [reflexivity |]). lia.
Qed.

Lemma encodeChar_decodeMap (v : Z) :
  0 <= v < 64 -> Go.decodeMap (encodeChar v) = Some v.
Proof.
  intros Hv. rewrite <- (Z2Nat.id v) by lia.
  apply encodeChar_decodeMap_nat. lia.
Qed.

Lemma lor_add_mul (lo hi n : Z) :
  0 <= n -> 0 <= lo < 2 ^ n -> Z.lor lo (hi * 2 ^ n) = lo + hi * 2 ^ n.
Proof.
  intros Hn Hlo. rewrite <- (lor_shiftl_add lo hi n Hn Hlo).
  rewrite Z.shiftl_mul_pow2 by lia. reflexivity.
Qed.

(** The 24 bits [decodeQuantum] assembles from four 6-bit values. *)
Lemma quantum_val (d0 d1 d2 d3 : Z) :
  0 <= d0 < 64 -> 0 <= d1 < 64 -> 0 <= d2 < 64 -> 0 <= d3 < 64 ->
  Z.lor (Z.lor (Z.lor (Z.shiftl d0 18) (Z.shiftl d1 12)) (Z.shiftl d2 6)) d3
  = d0 * 2 ^ 18 + d1 * 2 ^ 12 + d2 * 2 ^ 6 + d3.
Proof.
  intros H0 H1 H2 H3. rewrite !Z.shiftl_mul_pow2 by lia.
  rewrite (Z.lor_comm (d0 * 2 ^ 18)), (lor_add_mul (d1 * 2 ^ 12) d0 18) by lia.
  rewrite (Z.lor_comm _ (d2 * 2 ^ 6)).
  replace (d1 * 2 ^ 12 + d0 * 2 ^ 18) with ((d1 + d0 * 2 ^ 6) * 2 ^ 12) by lia.
  rewrite (lor_add_mul (d2 * 2 ^ 6) _ 12) by lia.
  rewrite (Z.lor_comm _ d3).
  replace (d2 * 2 ^ 6 + (d1 + d0 * 2 ^ 6) * 2 ^ 12)
    with ((d2 + (d1 + d0 * 2 ^ 6) * 2 ^ 6) * 2 ^ 6) by lia.
  rewrite (lor_add_mul d3 _ 6) by lia. lia.
Qed.

Lemma to_byte_shiftr (val k : Z) :
  0 <= k -> Go.to_byte (Z.shiftr val k) = (val / 2 ^ k) mod 256.
Proof.
  intros Hk. unfold Go.to_byte. change 255 with (Z.ones 8).
  rewrite Z.land_ones by lia. rewrite Z.shiftr_div_pow2 by lia. reflexivity.
Qed.

Lemma quantumBytes_three (b0 b1 b2 : Z) :
  Go.is_byte b0 -> Go.is_byte b1 -> Go.is_byte b2 ->
  Go.quantumBytes [b0 / 4; b0 mod 4 * 16 + b1 / 16; b1 mod 16 * 4 + b2 / 64; b2 mod 64] 4
  = [b0; b1; b2].
Proof.
  unfold Go.is_byte. intros H0 H1 H2. unfold Go.quantumBytes.
  cbn [nth firstn Nat.sub].
  rewrite quantum_val by euclid.
  replace (b0 / 4 * 2 ^ 18 + (b0 mod 4 * 16 + b1 / 16) * 2 ^ 12
           + (b1 mod 16 * 4 + b2 / 64) * 2 ^ 6 + b2 mod 64)
    with (b0 * 65536 + b1 * 256 + b2) by euclid.
  rewrite !to_byte_shiftr by lia.
  f_equal; [| f_equal; [| f_equal]]; euclid.
Qed.

Lemma quantumBytes_two (b0 b1 : Z) :
  Go.is_byte b0 -> Go.is_byte b1 ->
  Go.quantumBytes [b0 / 4; b0 mod 4 * 16 + b1 / 16; b1 mod 16 * 4] 3 = [b0; b1].
Proof.
  unfold Go.is_byte. intros H0 H1. unfold Go.quantumBytes.
  cbn [nth firstn Nat.sub].
  rewrite quantum_val by euclid.
  replace (b0 / 4 * 2 ^ 18 + (b0 mod 4 * 16 + b1 / 16) * 2 ^ 12
           + b1 mod 16 * 4 * 2 ^ 6 + 0)
    with (b0 * 65536 + b1 * 256) by euclid.
  rewrite !to_byte_shiftr by lia.
  f_equal; [| f_equal]; euclid.
Qed.

Lemma quantumBytes_one (b0 : Z) :
  Go.is_byte b0 -> Go.quantumBytes [b0 / 4; b0 mod 4 * 16] 2 = [b0].
Proof.
  unfold Go.is_byte. intros H0. unfold Go.quantumBytes.
  cbn [nth firstn Nat.sub].
  rewrite quantum_val by euclid.
  replace (b0 / 4 * 2 ^ 18 + b0 mod 4 * 16 * 2 ^ 12 + 0 * 2 ^ 6 + 0)
    with (b0 * 65536) by euclid.
  rewrite !to_byte_shiftr by lia.
  f_equal; euclid.
Qed.

Lemma decodeMap_padChar : Go.decodeMap "="%char = None.
Proof. reflexivity. Qed.

(** The decoder on the padded encoding, from any position. *)
Lemma decodeLoop_encoded (bs : list Z) :
  Forall Go.is_byte bs ->
  forall total si, Go.decodeLoop total (encodeURLString true bs) si 0 [] = Ok bs.
Proof.
  induction bs as [| b0 | b0 b1 | b0 b1 b2 rest IH] using list_ind3; intros Hb total si.
  - reflexivity.
  - pose proof (Forall_inv Hb) as H0. unfold Go.is_byte in H0.
    cbn [encodeURLString Go.decodeLoop].
    rewrite !encodeChar_decodeMap by euclid. cbn [Nat.eqb app].
    rewrite decodeMap_padChar.
    change (Go.isNewline "="%char) with false.
    change (Ascii.eqb "="%char Go.padChar) with true.
    cbn [negb Go.skipNewlines].
    change (Go.isNewline "="%char) with false. cbn iota.
    change (Ascii.eqb "="%char Go.padChar) with true. cbn [negb].
    rewrite (quantumBytes_one b0 H0). reflexivity.
  - pose proof (Forall_inv Hb) as H0. pose proof (Forall_inv (Forall_inv_tail Hb)) as H1.
    unfold Go.is_byte in H0, H1.
    cbn [encodeURLString Go.decodeLoop].
    rewrite !encodeChar_decodeMap by euclid. cbn [Nat.eqb app].
    rewrite decodeMap_padChar.
    change (Go.isNewline "="%char) with false.
    change (Ascii.eqb "="%char Go.padChar) with true.
    cbn [negb Go.skipNewlines].
    rewrite (quantumBytes_two b0 b1 H0 H1). reflexivity.
  - pose proof (Forall_inv Hb) as H0. pose proof (Forall_inv (Forall_inv_tail Hb)) as H1.
    pose proof (Forall_inv (Forall_inv_tail (Forall_inv_tail Hb))) as H2.
    pose proof (Forall_inv_tail (Forall_inv_tail (Forall_inv_tail Hb))) as Hrest.
    unfold Go.is_byte in H0, H1, H2.
    cbn [encodeURLString Go.decodeLoop].
    rewrite !encodeChar_decodeMap by euclid. cbn [Nat.eqb app].
    rewrite (IH Hrest), (quantumBytes_three b0 b1 b2 H0 H1 H2). reflexivity.
Qed.

Lemma repad_group (a b c d : ascii) (s : string) :
  repad (String a (String b (String c (String d s))))
  = String a (String b (String c (String d (repad s)))).
Proof.
  unfold repad. cbn [String.length].
  replace (S (S (S (S (String.length s))))) with (String.length s + 1 * 4)%nat by lia.
  rewrite Nat.Div0.mod_add. reflexivity.
Qed.

Lemma repad_unpadded (bs : list Z) :
  repad (encodeURLString false bs) = encodeURLString true bs.
Proof.
  induction bs as [| b0 | b0 b1 | b0 b1 b2 rest IH] using list_ind3;
    try reflexivity.
  cbn [encodeURLString]. rewrite repad_group, IH. reflexivity.
Qed.

Lemma repad_padded (bs : list Z) :
  repad (encodeURLString true bs) = encodeURLString true bs.
Proof.
  induction bs as [| b0 | b0 b1 | b0 b1 b2 rest IH] using list_ind3;
    try reflexivity.
  cbn [encodeURLString]. rewrite repad_group, IH. reflexivity.
Qed.

Lemma base64URLDecode_encodeURLString (bs : list Z) (pad : bool) :
  Forall Go.is_byte bs ->
  base64URLDecode (encodeURLString pad bs) = Ok bs.
Proof.
  intros Hb. rewrite (proj1 (base64URLDecode_repad _)).
  assert (Hrepad : repad (encodeURLString pad bs) = encodeURLString true bs)
    by (destruct pad; [apply repad_padded | apply repad_unpadded]).
  rewrite Hrepad. apply decodeLoop_encoded, Hb.
Qed.

(** X1: whatever bytes a field encodes, with or without the final '='
    characters, [base64URLDecode] returns exactly those bytes. *)
Theorem base64URLDecode_encoded (bs : list Z) :
  Forall Go.is_byte bs ->
  base64URLDecode (encodeURLString false bs) = Ok bs
  /\ base64URLDecode (encodeURLString true bs) = Ok bs.
Proof.
  intros Hb. split; apply base64URLDecode_encodeURLString, Hb.
Qed.

Lemma base64URLDecode_encoded_witness :
  Forall Go.is_byte [222; 173; 190; 239; 7]
  /\ encodeURLString false [222; 173; 190; 239; 7] = "3q2-7wc"%string
  /\ base64URLDecode "3q2-7wc" = Ok [222; 173; 190; 239; 7].
Proof.
  assert (Hb : Forall Go.is_byte [222; 173; 190; 239; 7])
    by (repeat constructor; unfold Go.is_byte; lia).
  split; [exact Hb |]. split; [reflexivity |].
  exact (proj1 (base64URLDecode_encoded [222; 173; 190; 239; 7] Hb)).
Defined.

(** ** The key decoder on encoded fields; the range of the exponent *)

Lemma big_endian_bound (bs : list Z) :
  Forall Go.is_byte bs -> 0 <= big_endian bs < 256 ^ Z.of_nat (length bs).
Proof.
  unfold Go.is_byte. induction 1 as [| b bs Hb _ IH]; cbn [big_endian length].
  - lia.
  - rewrite Nat2Z.inj_succ, Z.pow_succ_r by lia.
    assert (0 < 256 ^ Z.of_nat (length bs)) by (apply Z.pow_pos_nonneg; lia).
    nia.
Qed.

Lemma Forall_is_byte_firstn (k : nat) (bs : list Z) :
  Forall Go.is_byte bs -> Forall Go.is_byte (firstn k bs).
Proof. apply Forall_take. Qed.

(** X2: a record whose fields are the base64url encodings (padded or not) of
    a modulus and of an exponent of at most four bytes decodes to exactly the
    big-endian values of the two byte sequences. *)
Theorem decodeKey_encoded (kid alg kty use : string) (n e : list Z) (padN padE : bool) :
  Forall Go.is_byte n -> Forall Go.is_byte e -> (length e <= 4)%nat ->
  decodeKey (JWK.mk kid alg kty (encodeURLString padE e) (encodeURLString padN n) use)
  = Ok (rsa.mk (big_endian n) (big_endian e)).
Proof.
  intros Hn He Hlen.
  rewrite (decodeKey_Ok _ n e);
    [| apply base64URLDecode_encodeURLString, Hn
     | apply base64URLDecode_encodeURLString, He].
  unfold spec_exponent. destruct (length e <? 4)%nat eqn:Hlt.
  - rewrite big_endian_zeros. reflexivity.
  - rewrite firstn_all2 by lia. reflexivity.
Qed.

Lemma decodeKey_encoded_witness :
  Forall Go.is_byte [202; 254; 186; 190] /\ Forall Go.is_byte [1; 0; 1]
  /\ decodeKey (JWK.mk "k2" "RS256" "RSA" "AQAB" "yv66vg" "sig")
     = Ok (rsa.mk 3405691582 65537).
Proof.
  assert (Hn : Forall Go.is_byte [202; 254; 186; 190])
    by (repeat constructor; unfold Go.is_byte; lia).
  assert (He : Forall Go.is_byte [1; 0; 1])
    by (repeat constructor; unfold Go.is_byte; lia).
  split; [exact Hn |]. split; [exact He |].
  exact (decodeKey_encoded "k2" "RS256" "RSA" "sig" [202; 254; 186; 190] [1; 0; 1]
           false false Hn He ltac:(cbn; lia)).
Defined.

(** X3: the exponent computed from decoded bytes lies in the range of a
    32-bit unsigned integer, and bytes after the fourth play no role: of a
    longer exponent only the leading four bytes are read. *)
Theorem exponentOf_range_and_truncation (e : list Z) :
  Forall Go.is_byte e ->
  0 <= exponentOf e < 2 ^ 32
  /\ ((4 <= length e)%nat -> forall more, exponentOf (e ++ more) = exponentOf e).
Proof.
  intros Hb. split.
  - rewrite exponentOf_spec by exact Hb. unfold spec_exponent.
    destruct (length e <? 4)%nat eqn:Hlt.
    + apply Nat.ltb_lt in Hlt.
      pose proof (big_endian_bound _ (Forall_is_byte_zeros (4 - length e) e Hb)) as Hbd.
      rewrite length_app, repeat_length in Hbd.
      replace (4 - length e + length e)%nat with 4%nat in Hbd by lia. exact Hbd.
    + apply Nat.ltb_ge in Hlt.
      pose proof (big_endian_bound _ (Forall_is_byte_firstn 4 e Hb)) as Hbd.
      rewrite length_take in Hbd.
      replace (4 `min` length e)%nat with 4%nat in Hbd by lia. exact Hbd.
  - intros Hlen more. unfold exponentOf.
    assert (Hge : (length e <? 4)%nat = false) by (apply Nat.ltb_ge; lia).
    assert (Hge' : (length (e ++ more) <? 4)%nat = false)
      by (apply Nat.ltb_ge; rewrite length_app; lia).
    rewrite Hge, Hge'. unfold Go.BigEndian_Uint32.
    rewrite !app_nth1 by lia. reflexivity.
Qed.

Lemma exponentOf_range_and_truncation_witness :
  Forall Go.is_byte [0; 0; 1; 0] /\ (4 <= length [0; 0; 1; 0])%nat
  /\ exponentOf ([0; 0; 1; 0] ++ [1]) = 256.
Proof.
  assert (Hb : Forall Go.is_byte [0; 0; 1; 0])
    by (repeat constructor; unfold Go.is_byte; lia).
  split; [exact Hb |]. split; [cbn; lia |].
  rewrite (proj2 (exponentOf_range_and_truncation [0; 0; 1; 0] Hb) ltac:(cbn; lia) [1]).
  reflexivity.
Defined.

(** ** More on the JWKS cache *)

Lemma refreshed_world (st : State) : world (refreshed st) = world st.
Proof. unfold refreshed. destruct (Go.Hour <? _); reflexivity. Qed.

Lemma refreshed_config (st : State) :
  JwksURL (validator (refreshed st)) = JwksURL (validator st)
  /\ lastUpdated (validator (refreshed st)) = lastUpdated (validator st).
Proof. unfold refreshed. destruct (Go.Hour <? _); split; reflexivity. Qed.

Lemma refreshed_cache (st : State) :
  jwksCache (validator (refreshed st)) = jwksCache (validator st)
  \/ jwksCache (validator (refreshed st)) = ∅.
Proof. unfold refreshed. destruct (Go.Hour <? _); [right | left]; reflexivity. Qed.

(** One call of [getPublicKey], case by case. *)
Lemma getPublicKey_run (kid : string) (st : State) :
  getPublicKey kid st =
  match jwksCache (validator (refreshed st)) !! kid with
  | Some key => (Ok key, refreshed st)
  | None =>
      match net (world st) (length (httpGets (world st))) (JwksURL (validator st)) with
      | HttpFailure => (Err ErrHttpGet, requested (refreshed st))
      | HttpBadBody => (Err ErrJSONDecode, requested (refreshed st))
      | HttpJWKS jwks =>
          match firstMatch kid (Keys jwks) with
          | None => (Err ErrKeyNotFound, requested (refreshed st))
          | Some jwk =>
              match decodeKey jwk with
              | Ok key => (Ok key, stored kid key (requested (refreshed st)))
              | Err e => (Err e, requested (refreshed st))
              end
          end
      end
  end.
Proof.
  rewrite getPublicKey_unfold. cbn zeta.
  rewrite refreshed_world, (proj1 (refreshed_config st)).
  destruct (jwksCache (validator (refreshed st)) !! kid); [reflexivity |].
  destruct (net _ _ _) as [| | jwks]; try reflexivity.
  rewrite rangeKeys_unfold.
  destruct (firstMatch kid (Keys jwks)) as [jwk |] eqn:Hfind; [| reflexivity].
  rewrite (firstMatch_Kid _ _ _ Hfind). reflexivity.
Qed.

Lemma requested_refreshed_httpGets (st : State) :
  httpGets (world (requested (refreshed st)))
  = JwksURL (validator st) :: httpGets (world st).
Proof.
  change (httpGets (world (requested (refreshed st))))
    with (JwksURL (validator (refreshed st)) :: httpGets (world (refreshed st))).
  rewrite refreshed_world, (proj1 (refreshed_config st)). reflexivity.
Qed.

Lemma refreshed_miss (kid : string) (st : State) :
  jwksCache (validator st) !! kid = None ->
  jwksCache (validator (refreshed st)) !! kid = None.
Proof.
  intros Hmiss. destruct (refreshed_cache st) as [-> | ->];
    [exact Hmiss | apply lookup_empty].
Qed.

Lemma getPublicKey_miss_requests (kid : string) (st : State) :
  jwksCache (validator st) !! kid = None ->
  httpGets (world (snd (getPublicKey kid st)))
  = JwksURL (validator st) :: httpGets (world st).
Proof.
  intros Hmiss. rewrite getPublicKey_run, (refreshed_miss kid st Hmiss).
  pose proof (requested_refreshed_httpGets st) as Hreq.
  destruct (net _ _ _) as [| | jwks]; try exact Hreq.
  destruct (firstMatch kid (Keys jwks)) as [jwk |]; [| exact Hreq].
  destruct (decodeKey jwk); exact Hreq.
Qed.

(** X4: a resolution that fails has asked the endpoint exactly once (there is
    no retry), has stored no key and left [lastUpdated] alone (the cache holds
    what it held, or nothing when it was stale); the failure itself is not
    remembered: the next call for the key id, whenever it is made, asks the
    endpoint again. *)
Theorem getPublicKey_failure (kid : string) (st st' : State) (e : error) :
  getPublicKey kid st = (Err e, st') ->
  httpGets (world st') = JwksURL (validator st) :: httpGets (world st)
  /\ lastUpdated (validator st') = lastUpdated (validator st)
  /\ jwksCache (validator st') ⊆ jwksCache (validator st)
  /\ jwksCache (validator st') !! kid = None
  /\ forall t,
       httpGets (world (snd (getPublicKey kid (set_clock t st'))))
       = JwksURL (validator st) :: JwksURL (validator st) :: httpGets (world st).
Proof.
  intros Hcall.
  assert (Hst' : st' = requested (refreshed st)
                 /\ jwksCache (validator (refreshed st)) !! kid = None).
  { rewrite getPublicKey_run in Hcall.
    destruct (jwksCache (validator (refreshed st)) !! kid); [discriminate Hcall |].
    split; [| reflexivity].
    destruct (net _ _ _) as [| | jwks]; try (injection Hcall as _ <-; reflexivity).
    destruct (firstMatch kid (Keys jwks)) as [jwk |];
      [| injection Hcall as _ <-; reflexivity].
    destruct (decodeKey jwk); [discriminate Hcall | injection Hcall as _ <-; reflexivity]. }
  destruct Hst' as [-> Hmiss].
  pose proof (requested_refreshed_httpGets st) as Hgets.
  split; [exact Hgets |].
  split; [exact (proj2 (refreshed_config st)) |].
  split.
  { change (jwksCache (validator (requested (refreshed st))))
      with (jwksCache (validator (refreshed st))).
    destruct (refreshed_cache st) as [-> | ->];
      [reflexivity | apply map_empty_subseteq]. }
  split; [exact Hmiss |].
  intros t.
  rewrite (getPublicKey_miss_requests kid (set_clock t (requested (refreshed st))) Hmiss).
  change (httpGets (world (set_clock t (requested (refreshed st)))))
    with (httpGets (world (requested (refreshed st)))).
  change (JwksURL (validator (set_clock t (requested (refreshed st)))))
    with (JwksURL (validator (refreshed st))).
  rewrite Hgets, (proj1 (refreshed_config st)). reflexivity.
Qed.

Lemma getPublicKey_failure_witness :
  let st := mkState Fixture.validator0 Fixture.world0 in
  getPublicKey "k9" st = (Err ErrKeyNotFound, requested (refreshed st))
  /\ httpGets (world (snd (getPublicKey "k9"
                             (set_clock (Fixture.now + 1) (requested (refreshed st))))))
     = [Fixture.url; Fixture.url].
Proof.
  intros st.
  assert (Hcall : getPublicKey "k9" st = (Err ErrKeyNotFound, requested (refreshed st)))
    by (vm_compute; reflexivity).
  split; [exact Hcall |].
  pose proof (getPublicKey_failure "k9" st _ _ Hcall) as (_ & _ & _ & _ & Hnext).
  specialize (Hnext (Fixture.now + 1)).
  vm_compute in Hnext. vm_compute. exact Hnext.
Defined.

(** X5: while no more than an hour has passed since [lastUpdated], a
    resolution only adds to the cache: every entry present before the call is
    present, with the same key, after it, and the entries of other key ids
    are exactly the ones before. *)
Theorem getPublicKey_keeps_entries (kid : string) (st : State) :
  ~ stale st ->
  jwksCache (validator st) ⊆ jwksCache (validator (snd (getPublicKey kid st)))
  /\ forall k, k <> kid ->
       jwksCache (validator (snd (getPublicKey kid st))) !! k
       = jwksCache (validator st) !! k.
Proof.
  intros Hfresh. rewrite getPublicKey_run, (refreshed_fresh st Hfresh).
  destruct (jwksCache (validator st) !! kid) as [key |] eqn:Hhit;
    [split; [reflexivity | intros; reflexivity] |].
  destruct (net _ _ _) as [| | jwks]; try (split; [reflexivity | intros; reflexivity]).
  destruct (firstMatch kid (Keys jwks)) as [jwk |];
    [| split; [reflexivity | intros; reflexivity]].
  destruct (decodeKey jwk) as [key | e]; [| split; [reflexivity | intros; reflexivity]].
  cbn. split.
  - apply insert_subseteq, Hhit.
  - intros k Hk. apply lookup_insert_ne. congruence.
Qed.

Lemma getPublicKey_keeps_entries_witness :
  let s1 := set_clock (Fixture.now + Fixture.minutes 50)
              (snd (getPublicKey "k1" Fixture.state0')) in
  ~ stale s1
  /\ jwksCache (validator (snd (getPublicKey "k2" s1))) !! "k1"%string
     = Some Fixture.key1.
Proof.
  intros s1.
  assert (Hfresh : ~ stale s1) by (vm_compute; discriminate).
  split; [exact Hfresh |].
  rewrite (proj2 (getPublicKey_keeps_entries "k2" s1 Hfresh) "k1"%string
             ltac:(discriminate)).
  vm_compute. reflexivity.
Defined.







(** ** More on the token validator *)

Lemma as_string_Some (x : option value) (s : string) :
  as_string x = Some s -> x = Some (VString s).
Proof. destruct x as [[] |]; cbn; congruence. Qed.


Lemma expectedIssuer_nonempty (region pool : string) :
  String.eqb (expectedIssuer region pool) EmptyString = false.
Proof. reflexivity. Qed.

Lemma VerifyIssuer_true_iff (m : gmap string value) (region pool : string) :
  jwt.VerifyIssuer m (expectedIssuer region pool) true = true
  <-> m !! "iss"%string = Some (VString (expectedIssuer region pool)).
Proof.
  unfold jwt.VerifyIssuer. split.
  - destruct (m !! "iss"%string) as [[s | | | | |] |]; cbn [as_string negb];
      try discriminate.
    destruct (String.eqb s EmptyString); [discriminate |].
    intros Heq. apply String.eqb_eq in Heq. congruence.
  - intros ->. cbn [as_string]. rewrite expectedIssuer_nonempty.
    apply String.eqb_refl.
Qed.



Lemma GetSigningMethod_RSA_names (alg name : string) :
  jwt.GetSigningMethod alg = Some (jwt.SigningMethodRSA name) ->
  In alg ["RS256"; "RS384"; "RS512"]%string.
Proof.
  unfold jwt.GetSigningMethod.
  destruct (jwt.one_of alg ["RS256"; "RS384"; "RS512"]%string) eqn:Hrsa.
  - intros _. unfold jwt.one_of in Hrsa.
    apply existsb_exists in Hrsa as (x & Hin & Heq).
    apply String.eqb_eq in Heq. subst x. exact Hin.
  - repeat match goal with
           | |- context [if ?b then _ else _] => destruct b
           end; discriminate.
Qed.



Section ValidatorExtras.
Variable cognitoRegion : string.
Context {prim : jwt.Primitives}.




(** X10: only RS256, RS384 and RS512 tokens are ever accepted: the header
    of a returned token names one of the three as its alg, its method is
    that RSA method, its kid is a string and its [Valid] flag is set. *)
Theorem accepted_token_header (ts : string) (st : State) (tok : jwt.Token) :
  fst (ValidateToken cognitoRegion ts st) = Ok tok ->
  exists alg kid,
    jwt.Header tok !! "alg"%string = Some (VString alg)
    /\ In alg ["RS256"; "RS384"; "RS512"]%string
    /\ jwt.Method tok = jwt.SigningMethodRSA alg
    /\ jwt.Header tok !! "kid"%string = Some (VString kid)
    /\ jwt.Valid tok = true
    /\ jwt.Raw tok = ts.
Proof.
  rewrite ValidateToken_run.
  destruct (jwt.decodeSegments ts) as [seg |]; [| discriminate].
  destruct (as_string (jwt.segHeader seg !! "alg"%string)) as [alg |] eqn:Halg;
    [| discriminate].
  destruct (jwt.GetSigningMethod alg) as [[name | | | | |] |] eqn:Hm; try discriminate.
  destruct (as_string (jwt.segHeader seg !! "kid"%string)) as [kid |] eqn:Hkid;
    [| discriminate].
  destruct (getPublicKey kid st) as [[key | e] st1]; [| discriminate].
  destruct (jwt.Verify _ _ _ _); [| discriminate].
  destruct (jwt.MapClaims_Valid _ _); [discriminate |].
  destruct (checkClaims _ _ _); [discriminate |].
  intros Htok. injection Htok as <-.
  exists alg, kid. cbn [jwt.Header jwt.Method jwt.Valid jwt.Raw].
  split; [apply as_string_Some, Halg |].
  split; [apply (GetSigningMethod_RSA_names _ _ Hm) |].
  split; [rewrite (GetSigningMethod_RSA _ _ Hm); reflexivity |].
  split; [apply as_string_Some, Hkid |]. split; reflexivity.
Qed.

(** X11: for a token [jwt.Parse] accepted, a failing expiry check decides
    the error whatever the issuer is; when the expiry check passes, the
    call fails with the issuer error exactly when the iss claim is not the
    string https://cognito-idp.REGION.amazonaws.com/POOL (absent, not a
    string, or another string). *)
Theorem issuer_check (ts : string) (st st' : State) (tok : jwt.Token) :
  jwt.Parse ts keyFunc st = (Ok tok, st') ->
  let now := Go.Unix (clock (world st')) in
  let issuer := expectedIssuer cognitoRegion (UserPoolID (validator st')) in
  (jwt.VerifyExpiresAt (jwt.Claims tok) now true = false ->
   ValidateToken cognitoRegion ts st = (Err ErrTokenExpiredV, st'))
  /\ (jwt.VerifyExpiresAt (jwt.Claims tok) now true = true ->
      (ValidateToken cognitoRegion ts st = (Err ErrIssuerMismatch, st')
       <-> jwt.Claims tok !! "iss"%string <> Some (VString issuer))).
Proof.
  intros Hparse now issuer.
  rewrite ValidateToken_unfold, Hparse, (Parse_Ok_Valid _ _ _ _ _ Hparse).
  unfold checkClaims. fold now. fold issuer.
  split.
  - intros ->. reflexivity.
  - intros ->. cbn [negb].
    pose proof (VerifyIssuer_true_iff (jwt.Claims tok) cognitoRegion
                  (UserPoolID (validator st'))) as Hiff.
    fold issuer in Hiff.
    destruct (jwt.VerifyIssuer (jwt.Claims tok) issuer true); cbn [negb].
    + split.
      * destruct (claimIs _ "client_id" _), (claimIs _ "aud" _); discriminate.
      * intros Hne. destruct Hne. apply Hiff. reflexivity.
    + split; [| reflexivity].
      intros _ Heq. apply Hiff in Heq. discriminate Heq.
Qed.

End ValidatorExtras.

(** ** The validator's construction and the handler *)

Lemma eqb_empty_false (s : string) : s <> EmptyString -> String.eqb s EmptyString = false.
Proof. intros Hs. apply String.eqb_neq, Hs. Qed.

Lemma NewTokenValidator_Ok (region pool client : string) :
  region <> EmptyString -> pool <> EmptyString -> client <> EmptyString ->
  NewTokenValidator region pool client = Ok (requestValidator region pool client).
Proof.
  intros Hr Hp Hc. unfold NewTokenValidator.
  rewrite (eqb_empty_false _ Hr), (eqb_empty_false _ Hp), (eqb_empty_false _ Hc).
  reflexivity.
Qed.

(** X12: [NewTokenValidator] returns a validator exactly when region, pool
    id and client id are all non-empty; the validator has the JWKS URL of the
    pool, an empty cache and the zero [lastUpdated], so that its first
    resolution of any key id, at any time, asks the endpoint. *)
Theorem NewTokenValidator_fresh (region pool client : string) :
  ((exists v, NewTokenValidator region pool client = Ok v)
   <-> region <> EmptyString /\ pool <> EmptyString /\ client <> EmptyString)
  /\ forall v, NewTokenValidator region pool client = Ok v ->
       v = requestValidator region pool client
       /\ forall (w : World) (kid : string),
            cachePublished (mkState v w)
            /\ httpGets (world (snd (getPublicKey kid (mkState v w))))
               = JwksURL v :: httpGets w.
Proof.
  split.
  - split.
    + intros [v Hv]. unfold NewTokenValidator in Hv.
      destruct (String.eqb_spec region EmptyString); [discriminate Hv |].
      destruct (String.eqb_spec pool EmptyString); [discriminate Hv |].
      destruct (String.eqb_spec client EmptyString); [discriminate Hv |].
      auto.
    + intros (Hr & Hp & Hc). eexists. apply NewTokenValidator_Ok; assumption.
  - intros v Hv.
    assert (Heq : v = requestValidator region pool client).
    { unfold NewTokenValidator in Hv.
      destruct (String.eqb region EmptyString); [discriminate Hv |].
      destruct (String.eqb pool EmptyString); [discriminate Hv |].
      destruct (String.eqb client EmptyString); [discriminate Hv |].
      injection Hv as <-. reflexivity. }
    split; [exact Heq |]. subst v. intros w kid. split.
    + intros k key Hk. cbn in Hk. rewrite lookup_empty in Hk. discriminate Hk.
    + apply (getPublicKey_miss_requests kid (mkState (requestValidator region pool client) w)).
      apply lookup_empty.
Qed.

Lemma NewTokenValidator_fresh_witness :
  NewTokenValidator Fixture.region Fixture.pool Fixture.client = Ok Fixture.validator0
  /\ httpGets (world (snd (getPublicKey "k1" (mkState Fixture.validator0 Fixture.world1))))
     = [Fixture.url; Fixture.url].
Proof.
  assert (Hnew : NewTokenValidator Fixture.region Fixture.pool Fixture.client
                 = Ok Fixture.validator0) by reflexivity.
  split; [exact Hnew |].
  pose proof (proj2 (NewTokenValidator_fresh Fixture.region Fixture.pool Fixture.client)
                _ Hnew) as (_ & Hfirst).
  exact (proj2 (Hfirst Fixture.world1 "k1"%string)).
Defined.

Lemma prefix_append (pre s : string) : String.prefix pre (String.append pre s) = true.
Proof.
  induction pre as [| c pre IH]; [destruct s; reflexivity |].
  change (String.prefix (String c pre) (String c (String.append pre s)) = true).
  cbn [String.prefix]. destruct (ascii_dec c c) as [_ | Hne]; [exact IH | congruence].
Qed.

Lemma substring_all (s : string) : String.substring 0 (String.length s) s = s.
Proof. induction s as [| c s IH]; cbn; [reflexivity | rewrite IH; reflexivity]. Qed.

Lemma substring_append (pre s : string) :
  String.substring (String.length pre)
    (String.length (String.append pre s) - String.length pre) (String.append pre s) = s.
Proof.
  rewrite length_append.
  replace (String.length pre + String.length s - String.length pre)%nat
    with (String.length s) by lia.
  induction pre as [| c pre IH]; [apply substring_all |].
  change (String.substring (S (String.length pre)) (String.length s)
            (String c (String.append pre s)) = s).
  cbn [String.substring]. exact IH.
Qed.

(** [strings.TrimPrefix] removes a prefix that is there, once. *)
Lemma TrimPrefix_append (pre s : string) :
  Go.strings_TrimPrefix (String.append pre s) pre = s.
Proof.
  unfold Go.strings_TrimPrefix. rewrite prefix_append. apply substring_append.
Qed.

Section HandlerExtras.
Variables cognitoRegion cognitoUserPoolID cognitoClientID : string.
Context {prim : jwt.Primitives}.

(** One call of the handler, step by step. *)
Lemma handleRequest_run (event : events.APIGatewayCustomAuthorizerRequest) (w : World) :
  handleRequest cognitoRegion cognitoUserPoolID cognitoClientID event w =
  if String.eqb cognitoRegion EmptyString then (Err ErrEnvRegionMissing, w)
  else if String.eqb cognitoUserPoolID EmptyString then (Err ErrUserPoolIDMissing, w)
  else if String.eqb cognitoClientID EmptyString then (Err ErrClientIDMissing, w)
  else
    match ValidateToken cognitoRegion (bearerToken event) (requestState cognitoRegion cognitoUserPoolID cognitoClientID w) with
    | (Err e, st') => (Err e, world st')
    | (Ok tok, st') =>
        (Ok (events.mkResponse
               (default EmptyString (as_string (jwt.Claims tok !! "sub"%string)))
               (allowPolicy (events.MethodArn event))
               (contextOf (jwt.Claims tok))),
         world st')
    end.
Proof.
  unfold requestState, bearerToken, handleRequest, ValidateTokenForAPIGateway,
    NewTokenValidator, withValidator, requestValidator, bind, lift, ret, fail.
  destruct (String.eqb cognitoRegion EmptyString); [reflexivity |].
  destruct (String.eqb cognitoUserPoolID EmptyString); [reflexivity |].
  destruct (String.eqb cognitoClientID EmptyString); [reflexivity |].
  destruct (ValidateToken _ _ _) as [[tok | e] st']; reflexivity.
Qed.

(** X13: missing configuration is reported before the token is looked at
    and without any effect on the world: an empty region, pool id or client
    id fails the request with its own error, in that order. *)
Theorem handleRequest_configuration
        (event : events.APIGatewayCustomAuthorizerRequest) (w : World) :
  (cognitoRegion = EmptyString -> handleRequest cognitoRegion cognitoUserPoolID cognitoClientID event w = (Err ErrEnvRegionMissing, w))
  /\ (cognitoRegion <> EmptyString -> cognitoUserPoolID = EmptyString ->
      handleRequest cognitoRegion cognitoUserPoolID cognitoClientID event w = (Err ErrUserPoolIDMissing, w))
  /\ (cognitoRegion <> EmptyString -> cognitoUserPoolID <> EmptyString ->
      cognitoClientID = EmptyString ->
      handleRequest cognitoRegion cognitoUserPoolID cognitoClientID event w = (Err ErrClientIDMissing, w)).
Proof.
  rewrite handleRequest_run. split; [| split].
  - intros ->. reflexivity.
  - intros Hr ->. rewrite (eqb_empty_false _ Hr). reflexivity.
  - intros Hr Hp ->. rewrite (eqb_empty_false _ Hr), (eqb_empty_false _ Hp).
    reflexivity.
Qed.

(** X14: the handler fails closed.  It returns a response exactly when the
    configuration is complete and [ValidateToken], on a validator made for
    this request, returns a token for the authorization string without its
    "Bearer " prefix; every response carries the one Allow statement for
    the request's method ARN; an error of the validation is returned as the
    handler's error. *)
Theorem handleRequest_fail_closed
        (event : events.APIGatewayCustomAuthorizerRequest) (w : World) :
  ((exists resp, fst (handleRequest cognitoRegion cognitoUserPoolID cognitoClientID event w) = Ok resp)
   <-> cognitoRegion <> EmptyString /\ cognitoUserPoolID <> EmptyString
       /\ cognitoClientID <> EmptyString
       /\ exists tok, fst (ValidateToken cognitoRegion (bearerToken event) (requestState cognitoRegion cognitoUserPoolID cognitoClientID w)) = Ok tok)
  /\ (forall resp, fst (handleRequest cognitoRegion cognitoUserPoolID cognitoClientID event w) = Ok resp ->
        events.PolicyDocument resp = allowPolicy (events.MethodArn event))
  /\ (forall e, cognitoRegion <> EmptyString -> cognitoUserPoolID <> EmptyString ->
                cognitoClientID <> EmptyString ->
                fst (ValidateToken cognitoRegion (bearerToken event) (requestState cognitoRegion cognitoUserPoolID cognitoClientID w)) = Err e ->
                fst (handleRequest cognitoRegion cognitoUserPoolID cognitoClientID event w) = Err e).
Proof.
  rewrite handleRequest_run.
  destruct (String.eqb_spec cognitoRegion EmptyString) as [Hr | Hr].
  { split; [split |]; [intros [resp H]; discriminate H | tauto |].
    split; [intros resp H; discriminate H | tauto]. }
  destruct (String.eqb_spec cognitoUserPoolID EmptyString) as [Hp | Hp].
  { split; [split |]; [intros [resp H]; discriminate H | tauto |].
    split; [intros resp H; discriminate H | tauto]. }
  destruct (String.eqb_spec cognitoClientID EmptyString) as [Hc | Hc].
  { split; [split |]; [intros [resp H]; discriminate H | tauto |].
    split; [intros resp H; discriminate H | tauto]. }
  destruct (ValidateToken _ _ _) as [[tok | e] st']; cbn [fst].
  - split; [split |].
    + intros _. eauto 10.
    + intros _. eauto.
    + split; [intros resp H; injection H as <-; reflexivity |].
      intros e _ _ _ H. discriminate H.
  - split; [split |].
    + intros [resp H]. discriminate H.
    + intros (_ & _ & _ & tok & H). discriminate H.
    + split; [intros resp H; discriminate H |].
      intros e' _ _ _ H. injection H as <-. reflexivity.
Qed.

(** X15: the content of a response.  The principal is the token's sub claim
    when that is a string and the empty string otherwise; the context has
    sub (the principal), username (the claim cognito:username) and email
    when these claims are strings, and never any other entry. *)
Theorem handleRequest_response
        (event : events.APIGatewayCustomAuthorizerRequest) (w : World)
        (resp : events.APIGatewayCustomAuthorizerResponse) :
  fst (handleRequest cognitoRegion cognitoUserPoolID cognitoClientID event w) = Ok resp ->
  exists tok,
    fst (ValidateToken cognitoRegion (bearerToken event) (requestState cognitoRegion cognitoUserPoolID cognitoClientID w)) = Ok tok
    /\ events.PrincipalID resp
       = default EmptyString (as_string (jwt.Claims tok !! "sub"%string))
    /\ events.Context resp !! "sub"%string = Some (VString (events.PrincipalID resp))
    /\ events.Context resp !! "username"%string
       = VString <$> as_string (jwt.Claims tok !! "cognito:username"%string)
    /\ events.Context resp !! "email"%string
       = VString <$> as_string (jwt.Claims tok !! "email"%string)
    /\ forall k, k <> "sub"%string -> k <> "username"%string -> k <> "email"%string ->
                 events.Context resp !! k = None.
Proof.
  rewrite handleRequest_run.
  destruct (String.eqb cognitoRegion EmptyString); [discriminate |].
  destruct (String.eqb cognitoUserPoolID EmptyString); [discriminate |].
  destruct (String.eqb cognitoClientID EmptyString); [discriminate |].
  destruct (ValidateToken _ _ _) as [[tok | e] st']; [| discriminate].
  cbn [fst]. intros Hresp. injection Hresp as <-.
  exists tok. cbn [events.PrincipalID events.Context].
  split; [reflexivity |]. split; [reflexivity |].
  unfold contextOf.
  destruct (as_string (jwt.Claims tok !! "cognito:username"%string)) as [username |],
    (as_string (jwt.Claims tok !! "email"%string)) as [email |];
    cbn [fmap option_fmap option_map];
    (split; [| split; [| split]]);
    try (intros k Hsub Huser Hemail);
    repeat first [ rewrite lookup_insert_eq
                 | rewrite lookup_insert_ne by congruence
                 | rewrite lookup_singleton_eq
                 | rewrite lookup_singleton_ne by congruence ];
    reflexivity.
Qed.

(** X16: there is no cache across requests.  Whatever happened before, a
    request whose token decodes and names an RSA method and a key id asks
    the endpoint exactly once, at the JWKS URL of the pool. *)
Theorem handleRequest_one_request
        (event : events.APIGatewayCustomAuthorizerRequest) (w : World)
        (seg : jwt.Segments) (alg kid : string) :
  cognitoRegion <> EmptyString -> cognitoUserPoolID <> EmptyString ->
  cognitoClientID <> EmptyString ->
  jwt.decodeSegments (bearerToken event) = Some seg ->
  as_string (jwt.segHeader seg !! "alg"%string) = Some alg ->
  jwt.GetSigningMethod alg = Some (jwt.SigningMethodRSA alg) ->
  as_string (jwt.segHeader seg !! "kid"%string) = Some kid ->
  httpGets (snd (handleRequest cognitoRegion cognitoUserPoolID cognitoClientID event w))
  = JwksURL (requestValidator cognitoRegion cognitoUserPoolID cognitoClientID)
    :: httpGets w.
Proof.
  intros Hr Hp Hc Hdec Halg Hrsa Hkid. rewrite handleRequest_run.
  rewrite (eqb_empty_false _ Hr), (eqb_empty_false _ Hp), (eqb_empty_false _ Hc).
  rewrite ValidateToken_run, Hdec, Halg, Hrsa, Hkid.
  pose proof (getPublicKey_miss_requests kid (requestState cognitoRegion cognitoUserPoolID cognitoClientID w) (lookup_empty kid)) as Hget.
  change (JwksURL (validator (requestState cognitoRegion cognitoUserPoolID cognitoClientID w)))
    with (JwksURL (requestValidator cognitoRegion cognitoUserPoolID cognitoClientID))
    in Hget.
  change (httpGets (world (requestState cognitoRegion cognitoUserPoolID cognitoClientID w))) with (httpGets w) in Hget.
  destruct (getPublicKey kid (requestState cognitoRegion cognitoUserPoolID cognitoClientID w)) as [[key | e] st1]; cbn [snd] in Hget;
    [| exact Hget].
  destruct (jwt.Verify _ _ _ _); [| exact Hget].
  destruct (jwt.MapClaims_Valid _ _); [exact Hget |].
  destruct (checkClaims _ _ _); exact Hget.
Qed.

(** X17: the "Bearer " prefix is removed once and plays no other role: a
    request with the authorization string "Bearer " followed by a token is
    handled as the request with the bare token (one that does not itself
    start with "Bearer "); the request's type is not looked at. *)
Theorem handleRequest_bearer (ty ty' token arn : string) (w : World) :
  String.prefix "Bearer " token = false ->
  handleRequest cognitoRegion cognitoUserPoolID cognitoClientID (events.mkRequest ty (String.append "Bearer " token) arn) w
  = handleRequest cognitoRegion cognitoUserPoolID cognitoClientID (events.mkRequest ty' token arn) w.
Proof.
  intros Hbare. rewrite !handleRequest_run. unfold bearerToken.
  cbn [events.AuthorizationToken events.MethodArn].
  rewrite TrimPrefix_append.
  unfold Go.strings_TrimPrefix. rewrite Hbare. reflexivity.
Qed.

End HandlerExtras.

(** ** The further properties on the test vectors *)

Lemma tok_valid_accepted :
  ValidateToken (prim := Fixture.primitives) Fixture.region "tok-valid" Fixture.state0
  = (Ok acceptedToken, verified Fixture.state1).
Proof. vm_compute. reflexivity. Qed.

Lemma tok_valid_parsed :
  jwt.Parse (prim := Fixture.primitives) "tok-valid" keyFunc Fixture.state0
  = (Ok acceptedToken, verified Fixture.state1).
Proof. vm_compute. reflexivity. Qed.

Lemma request_valid_handled :
  handleRequest (prim := Fixture.primitives) Fixture.region Fixture.pool Fixture.client
    (Fixture.request "tok-valid") Fixture.world0
  = (Ok acceptedResponse, Fixture.world1).
Proof. vm_compute. reflexivity. Qed.




Lemma accepted_token_header_witness :
  fst (ValidateToken (prim := Fixture.primitives) Fixture.region "tok-valid"
         Fixture.state0) = Ok acceptedToken
  /\ exists alg kid,
       jwt.Header acceptedToken !! "alg"%string = Some (VString alg)
       /\ In alg ["RS256"; "RS384"; "RS512"]%string
       /\ jwt.Method acceptedToken = jwt.SigningMethodRSA alg
       /\ jwt.Header acceptedToken !! "kid"%string = Some (VString kid)
       /\ jwt.Valid acceptedToken = true
       /\ jwt.Raw acceptedToken = "tok-valid"%string.
Proof.
  assert (Htok : fst (ValidateToken (prim := Fixture.primitives) Fixture.region
                        "tok-valid" Fixture.state0) = Ok acceptedToken)
    by (rewrite tok_valid_accepted; reflexivity).
  split; [exact Htok |].
  exact (accepted_token_header (prim := Fixture.primitives) Fixture.region
           "tok-valid" Fixture.state0 acceptedToken Htok).
Defined.

(** The fixture token was issued for ap-northeast-1: a validator configured
    for another region refuses it with the issuer error. *)
Lemma issuer_check_witness :
  jwt.Parse (prim := Fixture.primitives) "tok-valid" keyFunc Fixture.state0
  = (Ok acceptedToken, verified Fixture.state1)
  /\ ValidateToken (prim := Fixture.primitives) "us-east-1" "tok-valid" Fixture.state0
     = (Err ErrIssuerMismatch, verified Fixture.state1).
Proof.
  split; [exact tok_valid_parsed |].
  pose proof (issuer_check (prim := Fixture.primitives) "us-east-1" "tok-valid"
                Fixture.state0 (verified Fixture.state1) acceptedToken tok_valid_parsed)
    as (_ & Hiss).
  apply (proj2 (Hiss ltac:(vm_compute; reflexivity))).
  vm_compute. discriminate.
Defined.

Lemma handleRequest_configuration_witness :
  handleRequest (prim := Fixture.primitives) Fixture.region EmptyString Fixture.client
    (Fixture.request "tok-valid") Fixture.world0
  = (Err ErrUserPoolIDMissing, Fixture.world0).
Proof.
  apply (proj1 (proj2 (handleRequest_configuration (prim := Fixture.primitives)
                         Fixture.region EmptyString Fixture.client
                         (Fixture.request "tok-valid") Fixture.world0)));
    [discriminate | reflexivity].
Defined.

Lemma handleRequest_response_witness :
  fst (handleRequest (prim := Fixture.primitives) Fixture.region Fixture.pool
         Fixture.client (Fixture.request "tok-valid") Fixture.world0)
  = Ok acceptedResponse
  /\ events.Context acceptedResponse !! "username"%string = None
  /\ events.Context acceptedResponse !! "token_use"%string = None.
Proof.
  assert (Hresp : fst (handleRequest (prim := Fixture.primitives) Fixture.region
                         Fixture.pool Fixture.client (Fixture.request "tok-valid")
                         Fixture.world0) = Ok acceptedResponse)
    by (rewrite request_valid_handled; reflexivity).
  split; [exact Hresp |].
  destruct (handleRequest_response (prim := Fixture.primitives) Fixture.region
              Fixture.pool Fixture.client (Fixture.request "tok-valid") Fixture.world0
              acceptedResponse Hresp) as (tok & _ & _ & _ & _ & _ & Hother).
  split; [reflexivity |].
  apply Hother; discriminate.
Defined.

Lemma handleRequest_one_request_witness :
  httpGets (snd (handleRequest (prim := Fixture.primitives) Fixture.region Fixture.pool
                   Fixture.client (Fixture.request "tok-valid") Fixture.world1))
  = [Fixture.url; Fixture.url].
Proof.
  pose proof (handleRequest_one_request (prim := Fixture.primitives) Fixture.region
                Fixture.pool Fixture.client (Fixture.request "tok-valid") Fixture.world1
                (Fixture.segments (Fixture.header "RS256" (Some "k1"%string))
                                  (Fixture.claims [Fixture.sub1; Fixture.exp1h]))
                "RS256" "k1"
                ltac:(discriminate) ltac:(discriminate) ltac:(discriminate)
                ltac:(vm_compute; reflexivity) ltac:(vm_compute; reflexivity)
                ltac:(vm_compute; reflexivity) ltac:(vm_compute; reflexivity))
    as Hone.
  vm_compute in Hone. vm_compute. exact Hone.
Defined.

Lemma handleRequest_bearer_witness :
  handleRequest (prim := Fixture.primitives) Fixture.region Fixture.pool Fixture.client
    (events.mkRequest "TOKEN" "Bearer tok-valid" "arn") Fixture.world0
  = handleRequest (prim := Fixture.primitives) Fixture.region Fixture.pool Fixture.client
      (events.mkRequest "REQUEST" "tok-valid" "arn") Fixture.world0.
Proof.
  exact (handleRequest_bearer (prim := Fixture.primitives) Fixture.region Fixture.pool
           Fixture.client "TOKEN" "REQUEST" "tok-valid" "arn" Fixture.world0 eq_refl).
Defined.


Lemma handleRequest_fail_closed_witness :
  exists resp,
    fst (handleRequest (prim := Fixture.primitives) Fixture.region Fixture.pool
           Fixture.client (Fixture.request "tok-valid") Fixture.world0) = Ok resp.
Proof.
  apply (proj2 (proj1 (handleRequest_fail_closed (prim := Fixture.primitives)
                         Fixture.region Fixture.pool Fixture.client
                         (Fixture.request "tok-valid") Fixture.world0))).
  split; [discriminate |]. split; [discriminate |]. split; [discriminate |].
  exists acceptedToken.
  change (bearerToken (Fixture.request "tok-valid")) with "tok-valid"%string.
  change (requestState Fixture.region Fixture.pool Fixture.client Fixture.world0)
    with Fixture.state0.
  rewrite tok_valid_accepted. reflexivity.
Defined.

(** ** The loop over the key set; failures on a stale cache; validating twice *)

Lemma firstMatch_skip (kid : string) (pre rest : list JWK.t) :
  Forall (fun j => JWK.Kid j <> kid) pre ->
  firstMatch kid (pre ++ rest) = firstMatch kid rest.
Proof.
  induction 1 as [| j pre Hj _ IH]; [reflexivity |].
  cbn [app]. unfold firstMatch in *. cbn [List.find].
  apply String.eqb_neq in Hj. rewrite Hj. exact IH.
Qed.

(** X18: the first record with the requested key id decides the outcome of
    the loop over the key set: records before it with other key ids are
    skipped, and the records after it are never looked at, also when it fails
    to decode and a later record with the same key id would decode. *)
Theorem first_record_decides (kid : string) (pre post : list JWK.t) (jwk : JWK.t)
        (st : State) :
  Forall (fun j => JWK.Kid j <> kid) pre ->
  JWK.Kid jwk = kid ->
  rangeKeys kid (pre ++ jwk :: post) st
  = match decodeKey jwk with
    | Ok key => (Ok key, stored kid key st)
    | Err e => (Err e, st)
    end.
Proof.
  intros Hpre Hkid. rewrite rangeKeys_unfold, (firstMatch_skip kid pre _ Hpre).
  unfold firstMatch. cbn [List.find].
  rewrite (proj2 (String.eqb_eq _ _) Hkid), Hkid. reflexivity.
Qed.

Lemma first_record_decides_witness :
  rangeKeys "k1" ([Fixture.otherKey] ++ emptyExponentKey :: [testVectorKey]) Fixture.state0
  = (Ok (rsa.mk 3735928559 0), stored "k1" (rsa.mk 3735928559 0) Fixture.state0).
Proof.
  exact (first_record_decides "k1" [Fixture.otherKey] [testVectorKey] emptyExponentKey
           Fixture.state0
           ltac:(repeat constructor; discriminate) eq_refl).
Defined.

(** X19: a resolution that fails on a stale cache leaves the validator with
    no key at all and still stale: the old entries are dropped before the
    endpoint is asked and are not restored when the request, the body or the
    record turns out bad. *)
Theorem stale_failure_empties_cache (kid : string) (st st' : State) (e : error) :
  stale st ->
  getPublicKey kid st = (Err e, st') ->
  jwksCache (validator st') = ∅ /\ stale st'.
Proof.
  intros Hs. rewrite (getPublicKey_stale kid st Hs). cbn zeta.
  assert (Hgoal : forall e', (@Err rsa.PublicKey e', requested (set_jwksCache ∅ st))
                             = (Err e, st') ->
                             jwksCache (validator st') = ∅ /\ stale st').
  { intros e' Heq. injection Heq as _ <-. split; [reflexivity | exact Hs]. }
  destruct (net _ _ _) as [| | jwks]; try apply Hgoal.
  destruct (firstMatch kid (Keys jwks)) as [jwk |]; [| apply Hgoal].
  destruct (decodeKey jwk); [discriminate | apply Hgoal].
Qed.

Lemma stale_failure_empties_cache_witness :
  let st := mkState (mkTokenValidator Fixture.url Fixture.pool Fixture.client
                       {[ "k1"%string := Fixture.key1 ]} 0)
                    (mkWorld Fixture.now (fun _ _ => HttpFailure) [] 0) in
  stale st
  /\ fst (getPublicKey "k1" st) = Err ErrHttpGet
  /\ jwksCache (validator (snd (getPublicKey "k1" st))) = ∅.
Proof.
  intros st.
  assert (Hs : stale st) by (vm_compute; reflexivity).
  assert (Hcall : getPublicKey "k1" st = (Err ErrHttpGet, snd (getPublicKey "k1" st)))
    by (vm_compute; reflexivity).
  split; [exact Hs |]. split; [rewrite Hcall; reflexivity |].
  exact (proj1 (stale_failure_empties_cache "k1" st _ _ Hs Hcall)).
Defined.

Section Revalidation.
Variable cognitoRegion : string.
Context {prim : jwt.Primitives}.

(** X20: the state an accepting validation leaves holds the token's key and
    is not stale.  Validating again while no more than an hour has passed
    since [lastUpdated] makes no request to the endpoint, and at the same
    instant the same token is returned. *)
Theorem revalidation_is_cached (ts : string) (st st1 : State) (tok : jwt.Token) :
  ValidateToken cognitoRegion ts st = (Ok tok, st1) ->
  ~ stale st1
  /\ ValidateToken cognitoRegion ts st1 = (Ok tok, verified st1)
  /\ forall t,
       t - lastUpdated (validator st1) <= Go.Hour ->
       httpGets (world (snd (ValidateToken cognitoRegion ts (set_clock t st1))))
       = httpGets (world st1).
Proof.
  rewrite ValidateToken_run.
  destruct (jwt.decodeSegments ts) as [seg |] eqn:Hdec; [| discriminate].
  destruct (as_string (jwt.segHeader seg !! "alg"%string)) as [alg |] eqn:Halg;
    [| discriminate].
  destruct (jwt.GetSigningMethod alg) as [[name | | | | |] |] eqn:Hm; try discriminate.
  destruct (as_string (jwt.segHeader seg !! "kid"%string)) as [kid |] eqn:Hkid;
    [| discriminate].
  pose proof (getPublicKey_frame kid st) as (Hclock & _ & _ & _ & Hpool & Hclient).
  destruct (getPublicKey kid st) as [[key | e] s1] eqn:Hkey; [| discriminate].
  cbn [snd] in Hclock, Hpool, Hclient.
  destruct (jwt.Verify _ _ _ _) eqn:Hsig; [| discriminate].
  destruct (jwt.MapClaims_Valid _ _) eqn:Hlib; [discriminate |].
  destruct (checkClaims _ _ _) eqn:Hchk; [discriminate |].
  intros Heq. injection Heq as <- <-.
  pose proof (getPublicKey_Ok_cached kid st s1 key Hkey) as Hcached.
  assert (Hfresh : ~ stale s1).
  { rewrite getPublicKey_run in Hkey.
    destruct (jwksCache (validator (refreshed st)) !! kid) as [key' |] eqn:Hhit.
    - injection Hkey as _ <-.
      destruct (Z.lt_ge_cases Go.Hour (clock (world st) - lastUpdated (validator st)))
        as [Hstale | Hnot].
      + rewrite (refreshed_stale st Hstale) in Hhit. cbn in Hhit.
        rewrite lookup_empty in Hhit. discriminate Hhit.
      + rewrite (refreshed_fresh st) by (unfold stale; lia). unfold stale. lia.
    - unfold stale. destruct (net _ _ _) as [| | jwks]; try discriminate Hkey.
      destruct (firstMatch kid (Keys jwks)) as [jwk |]; [| discriminate Hkey].
      destruct (decodeKey jwk); [| discriminate Hkey].
      injection Hkey as _ <-. cbn. rewrite refreshed_world.
      unfold Go.Hour, Go.Second. lia. }
  assert (Hhit : forall t, t - lastUpdated (validator s1) <= Go.Hour ->
                           getPublicKey kid (set_clock t (verified s1))
                           = (Ok key, set_clock t (verified s1))).
  { intros t Ht. apply getPublicKey_hit; [| exact Hcached].
    unfold stale. cbn. lia. }
  split; [exact Hfresh |]. split.
  - rewrite ValidateToken_run, Hdec, Halg, Hm, Hkid.
    assert (Hnow : clock (world s1) - lastUpdated (validator s1) <= Go.Hour)
      by (unfold stale in Hfresh; lia).
    pose proof (Hhit (clock (world s1)) Hnow) as Hagain.
    change (set_clock (clock (world s1)) (verified s1)) with (verified s1) in Hagain.
    rewrite Hagain, Hsig.
    change (clock (world (verified s1))) with (clock (world s1)).
    rewrite Hclock, Hlib.
    rewrite (checkClaims_frame cognitoRegion st (verified s1)) by assumption.
    rewrite Hchk. reflexivity.
  - intros t Ht.
    rewrite ValidateToken_run, Hdec, Halg, Hm, Hkid, (Hhit t Ht), Hsig.
    destruct (jwt.MapClaims_Valid (jwt.segClaims seg)
                (Go.Unix (clock (world (set_clock t (verified s1))))));
      [reflexivity |].
    destruct (checkClaims cognitoRegion (set_clock t (verified s1)) (jwt.segClaims seg));
      reflexivity.
Qed.

End Revalidation.

Lemma revalidation_is_cached_witness :
  ValidateToken (prim := Fixture.primitives) Fixture.region "tok-valid" Fixture.state0
  = (Ok acceptedToken, verified Fixture.state1)
  /\ ValidateToken (prim := Fixture.primitives) Fixture.region "tok-valid"
       (verified Fixture.state1)
     = (Ok acceptedToken, verified (verified Fixture.state1)).
Proof.
  split; [exact tok_valid_accepted |].
  exact (proj1 (proj2 (revalidation_is_cached (prim := Fixture.primitives) Fixture.region
                         "tok-valid" Fixture.state0 (verified Fixture.state1)
                         acceptedToken tok_valid_accepted))).
Defined.
